(** * Verification of the study-query service ([app.py])

    The service answers read-only HTTP queries over a relational store of
    studies annotated with terms and coordinates.  This development embeds
    the term normaliser, the coordinate parser, the SQL statements and the
    five query routes of [app.py], and proves the properties the
    specification states about them.

    Strings.  A Python [str] is modelled as a Rocq [string] whose
    characters are the code points 0..255 (Latin-1).  On that range
    [str.isspace], [str.lower], [str.strip], [str.split], [int] and
    [json.dumps] are modelled exactly as CPython implements them; code points
    above 255 are outside the model. *)

From Stdlib Require Import ZArith NArith Ascii String List Lia DecimalString.
From Stdlib Require QArith DecimalPos.
From stdpp Require Import base decidable option list strings.

Local Open Scope string_scope.
Local Open Scope list_scope.
Local Open Scope N_scope.
Local Open Scope nat_scope.

(** ** Python string primitives *)

Module Py.

(** [str.isspace] on one code point: TAB..CR, FS..US, space, NEL, NBSP. *)
Definition isspace (c : ascii) : bool :=
  let n := N_of_ascii c in
  ((9 <=? n) && (n <=? 13) || (28 <=? n) && (n <=? 32)
   || (n =? 133) || (n =? 160))%N.

(** [str.lower] on one code point: A..Z and the accented capitals
    U+00C0..U+00DE (except the multiplication sign U+00D7) move up by 32. *)
Definition lower_char (c : ascii) : ascii :=
  let n := N_of_ascii c in
  if ((65 <=? n) && (n <=? 90)
      || (192 <=? n) && (n <=? 222) && negb (n =? 215))%N
  then ascii_of_N (n + 32) else c.

(** [s.lower()] *)
Fixpoint lower (s : string) : string :=
  match s with
  | EmptyString => EmptyString
  | String c s' => String (lower_char c) (lower s')
  end.

(** [s.lstrip()]: drop the leading whitespace. *)
Fixpoint lstrip (s : string) : string :=
  match s with
  | EmptyString => EmptyString
  | String c s' => if isspace c then lstrip s' else s
  end.

(** [s.rstrip()]: drop the trailing whitespace.  A character is kept when
    something is kept after it or when it is not whitespace. *)
Fixpoint rstrip (s : string) : string :=
  match s with
  | EmptyString => EmptyString
  | String c s' =>
      match rstrip s' with
      | EmptyString => if isspace c then EmptyString else String c EmptyString
      | r => String c r
      end
  end.

(** [s.strip()] *)
Definition strip (s : string) : string := rstrip (lstrip s).

(** [s.startswith(p)] *)
Fixpoint startswith (s p : string) {struct p} : bool :=
  match p, s with
  | EmptyString, _ => true
  | String _ _, EmptyString => false
  | String a p', String b s' => if Ascii.eqb a b then startswith s' p' else false
  end.

(** [s.replace(old, new)] for one-character [old] and [new]. *)
Fixpoint replace (s : string) (old new : ascii) : string :=
  match s with
  | EmptyString => EmptyString
  | String c s' =>
      String (if Ascii.eqb c old then new else c) (replace s' old new)
  end.

(** [s.split(sep)] for a one-character separator: every occurrence of
    [sep] cuts, empty pieces are kept, and the result is never empty. *)
Fixpoint split (s : string) (sep : ascii) : list string :=
  match s with
  | EmptyString => [EmptyString]
  | String c s' =>
      if Ascii.eqb c sep then EmptyString :: split s' sep
      else match split s' sep with
           | [] => [String c EmptyString]
           | w :: ws => String c w :: ws
           end
  end.

(** Whitespace as [int()] skips it: TAB..CR and space, and the two Latin-1
    blanks NEL and NBSP.  Unlike [str.isspace], the separators FS..US
    (28..31) are not skipped. *)
Definition int_space (c : ascii) : bool :=
  let n := N_of_ascii c in
  ((9 <=? n) && (n <=? 13) || (n =? 32) || (n =? 133) || (n =? 160))%N.

Definition digit (c : ascii) : option Z :=
  let n := N_of_ascii c in
  if ((48 <=? n) && (n <=? 57))%N then Some (Z.of_N n - 48)%Z else None.

Fixpoint skip_space (s : string) : string :=
  match s with
  | EmptyString => EmptyString
  | String c s' => if int_space c then skip_space s' else s
  end.

Fixpoint all_space (s : string) : bool :=
  match s with
  | EmptyString => true
  | String c s' => int_space c && all_space s'
  end.

(** The digits of a numeral, most significant first, then only blanks. *)
Fixpoint digits (acc : Z) (s : string) : option Z :=
  match s with
  | EmptyString => Some acc
  | String c s' =>
      match digit c with
      | Some d => digits (10 * acc + d)%Z s'
      | None => if all_space s then Some acc else None
      end
  end.

(** The number of digits a string starts with. *)
Fixpoint leading_digits (s : string) : nat :=
  match s with
  | EmptyString => O
  | String c s' =>
      match digit c with
      | Some _ => S (leading_digits s')
      | None => O
      end
  end.

(** [sys.int_info.default_max_str_digits]: the interpreter (CPython 3.11 and
    later) converts no numeral of more digits, leading zeros counted; the
    application leaves the default in place. *)
Definition max_str_digits : N := 4300.

(** [int(s)] in base 10 for a string without underscores (the pieces of
    [split("_")] never contain one): blanks, an optional sign, at least one
    and at most [max_str_digits] digits, blanks.  [None] stands for
    [ValueError]. *)
Definition int (s : string) : option Z :=
  let s := skip_space s in
  let '(sign, r) :=
    match s with
    | String "-"%char r => ((-1)%Z, r)
    | String "+"%char r => (1%Z, r)
    | _ => (1%Z, s)
    end in
  match r with
  | EmptyString => None
  | String c _ =>
      match digit c with
      | Some _ =>
          if (N.of_nat (leading_digits r) <=? max_str_digits)%N
          then option_map (Z.mul sign) (digits 0 r)
          else None
      | None => None
      end
  end.

(** [a, b, c = values]: exactly three values, none of which raised. *)
Definition unpack3 (values : list (option Z)) : option (Z * Z * Z) :=
  match values with
  | [Some a; Some b; Some c] => Some (a, b, c)
  | _ => None
  end.

(** [s[n:]] *)
Fixpoint slice_from (n : nat) (s : string) : string :=
  match n, s with
  | O, _ => s
  | S n', EmptyString => EmptyString
  | S n', String _ s' => slice_from n' s'
  end.

End Py.

(** ** The term normaliser (app.py, lines 26-31) *)

Definition prefix : string := "terms_abstract_tfidf__".

Definition normalize_term (term : string) : string :=
  let term := Py.lower (Py.strip term) in
  if negb (Py.startswith term prefix) then prefix +:+ term else term.

(** ** JSON values and [json.dumps] *)

#[warnings="-register-all"]
Inductive json :=
| JNull
| JInt (n : Z)
| JStr (s : string)
| JArr (items : list json)
| JObj (fields : list (string * json)).

Module Json.

Definition hex_digit (n : N) : ascii :=
  if (n <? 10)%N then ascii_of_N (48 + n) else ascii_of_N (87 + n).

(** The double-quote character, code point 34. *)
Definition dquote : string := String "034"%char EmptyString.

(** A backslash, code point 92, in front of [s]. *)
Definition backslash (s : string) : string := String "092"%char s.

(** One character of a string literal, as [json.dumps] writes it with its
    default [ensure_ascii=True]: short escapes for the quote, the backslash
    and five control characters, the character itself from space to tilde
    and a four-digit hexadecimal escape for everything else. *)
Definition escape_char (c : ascii) : string :=
  let n := N_of_ascii c in
  if (n =? 34)%N then backslash dquote
  else if (n =? 92)%N then backslash (backslash EmptyString)
  else if (n =? 10)%N then backslash "n"
  else if (n =? 13)%N then backslash "r"
  else if (n =? 9)%N then backslash "t"
  else if (n =? 8)%N then backslash "b"
  else if (n =? 12)%N then backslash "f"
  else if ((32 <=? n) && (n <=? 126))%N then String c EmptyString
  else backslash
         ("u00" +:+ String (hex_digit (n / 16))
                      (String (hex_digit (n mod 16)) EmptyString)).

Fixpoint escape (s : string) : string :=
  match s with
  | EmptyString => EmptyString
  | String c s' => escape_char c +:+ escape s'
  end.

Definition quote (s : string) : string := dquote +:+ escape s +:+ dquote.

(** [sep.join(parts)] *)
Fixpoint join (sep : string) (parts : list string) : string :=
  match parts with
  | [] => EmptyString
  | [p] => p
  | p :: ps => p +:+ sep +:+ join sep ps
  end.

(** [str(n)] for an integer, also used by [json.dumps] and by f-strings.
    The interpreter writes integers of at most [Py.max_str_digits] digits;
    the routes write only integers that [Py.int] has read, which are within
    that limit. *)
Definition str_of_int (n : Z) : string := NilZero.string_of_int (Z.to_int n).

(** [json.dumps(j)] with the default separators [", "] and [": "]; the
    fields of an object are written in the order the object holds them. *)
Fixpoint dumps (j : json) : string :=
  match j with
  | JNull => "null"
  | JInt n => str_of_int n
  | JStr s => quote s
  | JArr items => "[" +:+ join ", " (map dumps items) +:+ "]"
  | JObj fields =>
      "{" +:+ join ", " (map (fun kv => quote (fst kv) +:+ ": " +:+ dumps (snd kv)) fields)
      +:+ "}"
  end.

End Json.

(** ** The backing store

    The three relations of schema [ns].  The schema is not part of the
    source; the columns are those the statements of [app.py] name.  Keys are
    text, coordinates are read through [ST_X], [ST_Y], [ST_Z] and compared
    with integers, and no column holds NULL. *)

Record annotation := {
  a_study_id : string;
  a_contrast_id : string;
  a_term : string;
  a_weight : QArith_base.Q   (* no statement of the routes reads it *)
}.

Record meta := { m_study_id : string; m_title : string }.

Record coordinate := { c_study_id : string; c_x : Z; c_y : Z; c_z : Z }.

Record database := {
  annotations_terms : list annotation;
  metadata : list meta;
  coordinates : list coordinate
}.

(** A result row of the study statements: [(study_id, title)]. *)
Abbreviation study := (string * string)%type.

Module Sql.

(** [LIMIT n] *)
Fixpoint limit {A} (n : N) (rows : list A) : list A :=
  match rows with
  | [] => []
  | r :: rows' => if (n =? 0)%N then [] else r :: limit (N.pred n) rows'
  end.

(** [SELECT DISTINCT]: one copy of every row. *)
Definition distinct {A} `{EqDecision A} (rows : list A) : list A := remove_dups rows.

Definition has_term (d : database) (study_id term : string) : bool :=
  existsb (fun b => (a_study_id b =? study_id)%string && (a_term b =? term)%string)
          (annotations_terms d).

(** [ST_X(geom) = :x AND ST_Y(geom) = :y AND ST_Z(geom) = :z].  [ST_X],
    [ST_Y] and [ST_Z] are double precision, and the store converts the bound
    integer to double precision to compare.  The conversion is exact for
    integers of magnitude at most [2 ^ 53]; on these the comparison is the
    equality of integers written here.  The properties that need the
    equality to be exact assume that range ([point_exact],
    [coordinates_exact] below). *)
Definition at_point (c : coordinate) (x y z : Z) : bool :=
  ((c_x c =? x) && (c_y c =? y) && (c_z c =? z))%Z.

Definition has_point (d : database) (study_id : string) (x y z : Z) : bool :=
  existsb (fun c => (c_study_id c =? study_id)%string && at_point c x y z)
          (coordinates d).

(** [SELECT DISTINCT term FROM ns.annotations_terms LIMIT 100000] *)
Definition terms_sample (d : database) : list string :=
  limit 100000 (distinct (map a_term (annotations_terms d))).

(** [SELECT DISTINCT s.study_id, m.title FROM ns.annotations_terms s
     JOIN ns.metadata m USING (study_id) WHERE s.term = :term LIMIT 10000] *)
Definition studies_by_term (d : database) (term : string) : list study :=
  limit 10000 (distinct (
    s ← annotations_terms d;
    m ← metadata d;
    if (a_study_id s =? m_study_id m)%string && (a_term s =? term)%string
    then [(a_study_id s, m_title m)] else [])).

(** [SELECT DISTINCT m.study_id, m.title FROM ns.annotations_terms a
     JOIN ns.metadata m ON a.study_id = m.study_id
     WHERE a.term = :term_a AND NOT EXISTS (SELECT 1 FROM ns.annotations_terms b
       WHERE b.study_id = a.study_id AND b.term = :term_b) LIMIT 1000] *)
Definition term_a_not_b (d : database) (term_a term_b : string) : list study :=
  limit 1000 (distinct (
    a ← annotations_terms d;
    m ← metadata d;
    if (a_study_id a =? m_study_id m)%string && (a_term a =? term_a)%string
       && negb (has_term d (a_study_id a) term_b)
    then [(m_study_id m, m_title m)] else [])).

(** The same statement with the roles of the two tables' aliases swapped:
    [WHERE b.term = :term_b AND NOT EXISTS (... a.term = :term_a)]. *)
Definition term_b_not_a (d : database) (term_a term_b : string) : list study :=
  limit 1000 (distinct (
    b ← annotations_terms d;
    m ← metadata d;
    if (a_study_id b =? m_study_id m)%string && (a_term b =? term_b)%string
       && negb (has_term d (a_study_id b) term_a)
    then [(m_study_id m, m_title m)] else [])).

(** [SELECT DISTINCT m.study_id, m.title FROM ns.annotations_terms a
     JOIN ns.annotations_terms b ON a.study_id = b.study_id
     JOIN ns.metadata m ON a.study_id = m.study_id
     WHERE a.term = :term_a AND b.term = :term_b LIMIT 100] *)
Definition term_a_and_b (d : database) (term_a term_b : string) : list study :=
  limit 100 (distinct (
    a ← annotations_terms d;
    b ← annotations_terms d;
    m ← metadata d;
    if (a_study_id a =? a_study_id b)%string && (a_study_id a =? m_study_id m)%string
       && (a_term a =? term_a)%string && (a_term b =? term_b)%string
    then [(m_study_id m, m_title m)] else [])).

(** [SELECT DISTINCT m.study_id, m.title FROM ns.coordinates c1
     JOIN ns.metadata m ON c1.study_id = m.study_id
     WHERE ST_X(c1.geom) = :x1 AND ST_Y(c1.geom) = :y1 AND ST_Z(c1.geom) = :z1
     AND NOT EXISTS (SELECT 1 FROM ns.coordinates c2 WHERE c2.study_id = c1.study_id
       AND ST_X(c2.geom) = :x2 AND ST_Y(c2.geom) = :y2 AND ST_Z(c2.geom) = :z2)
     LIMIT 100] *)
Definition coord_1_not_2 (d : database) (x1 y1 z1 x2 y2 z2 : Z) : list study :=
  limit 100 (distinct (
    c1 ← coordinates d;
    m ← metadata d;
    if (c_study_id c1 =? m_study_id m)%string && at_point c1 x1 y1 z1
       && negb (has_point d (c_study_id c1) x2 y2 z2)
    then [(m_study_id m, m_title m)] else [])).

(** The mirrored statement: rows at point 2 of studies with no row at
    point 1. *)
Definition coord_2_not_1 (d : database) (x1 y1 z1 x2 y2 z2 : Z) : list study :=
  limit 100 (distinct (
    c2 ← coordinates d;
    m ← metadata d;
    if (c_study_id c2 =? m_study_id m)%string && at_point c2 x2 y2 z2
       && negb (has_point d (c_study_id c2) x1 y1 z1)
    then [(m_study_id m, m_title m)] else [])).

End Sql.

(** A statement sent to the store, with its bound parameters. *)
Inductive statement :=
| SelectTermsSample
| SelectStudiesByTerm (term : string)
| SelectTermANotB (term_a term_b : string)
| SelectTermBNotA (term_a term_b : string)
| SelectTermAAndB (term_a term_b : string)
| SelectCoord1Not2 (x1 y1 z1 x2 y2 z2 : Z)
| SelectCoord2Not1 (x1 y1 z1 x2 y2 z2 : Z).

(** A fetched row: the selected columns, in order, by name. *)
Abbreviation row := (list (string * string)).

Definition study_row (s : study) : row := [("study_id", fst s); ("title", snd s)].

(** What a statement returns when the store executes it. *)
Definition run (d : database) (q : statement) : list row :=
  match q with
  | SelectTermsSample => map (fun t => [("term", t)]) (Sql.terms_sample d)
  | SelectStudiesByTerm term => map study_row (Sql.studies_by_term d term)
  | SelectTermANotB term_a term_b => map study_row (Sql.term_a_not_b d term_a term_b)
  | SelectTermBNotA term_a term_b => map study_row (Sql.term_b_not_a d term_a term_b)
  | SelectTermAAndB term_a term_b => map study_row (Sql.term_a_and_b d term_a term_b)
  | SelectCoord1Not2 x1 y1 z1 x2 y2 z2 =>
      map study_row (Sql.coord_1_not_2 d x1 y1 z1 x2 y2 z2)
  | SelectCoord2Not1 x1 y1 z1 x2 y2 z2 =>
      map study_row (Sql.coord_2_not_1 d x1 y1 z1 x2 y2 z2)
  end.

(** ** Exceptions, the process state and the handler monad *)

Inductive exn :=
| RuntimeError (msg : string)
| ValueError (msg : string)
| SQLAlchemyError (msg : string).   (* any exception the store client raises *)

(** [str(e)] *)
Definition str_exn (e : exn) : string :=
  match e with RuntimeError m | ValueError m | SQLAlchemyError m => m end.

(** The engine object: a handle on the URL it was created for. *)
Inductive engine := Engine (url : string).

(** What the store client is asked to do, in order. *)
Inductive event :=
| Begin                       (* [eng.begin()]: connect and open a transaction *)
| Execute (q : statement)     (* [conn.execute(text(...), params)] *)
| Commit                      (* leaving the [with] block normally *)
| Rollback.                   (* leaving it by an exception *)

(** The surroundings of a request: the environment variable, the content of
    the database, and which calls to the store fail.  [fault n = Some msg]
    means that the [n]-th call made to the store (counted from the start of
    the process) raises an exception whose text is [msg]. *)
Record world := {
  DB_URL : option string;
  create_engine_error : string -> option string;
  db : database;
  fault : nat -> option string
}.

(** The state of the process: the module-level [_engine] and the calls made
    to the store so far. *)
Record process := { _engine : option engine; calls : list event }.

Definition M (A : Type) : Type := world -> process -> (exn + A) * process.

Definition ret {A} (a : A) : M A := fun _ st => (inr a, st).

Definition raise {A} (e : exn) : M A := fun _ st => (inl e, st).

Definition bind {A B} (m : M A) (k : A -> M B) : M B :=
  fun w st =>
    match m w st with
    | (inr a, st') => k a w st'
    | (inl e, st') => (inl e, st')
    end.

(** [try: body except <class>: handler]; [handler e = None] when the
    [except] clause does not match [e], which then propagates. *)
Definition try_except {A} (body : M A) (handler : exn -> option (M A)) : M A :=
  fun w st =>
    match body w st with
    | (inr a, st') => (inr a, st')
    | (inl e, st') =>
        match handler e with
        | Some h => h w st'
        | None => (inl e, st')
        end
    end.

#[global] Instance M_ret : MRet M := @ret.
#[global] Instance M_bind : MBind M := fun A B k m => bind m k.

(** [except Exception as e] *)
Definition any_exception {A} (h : exn -> M A) : exn -> option (M A) :=
  fun e => Some (h e).

(** [except ValueError] *)
Definition value_error {A} (h : M A) : exn -> option (M A) :=
  fun e => match e with ValueError _ => Some h | _ => None end.

(** One call to the store: it is recorded, and it raises when the world
    says this call fails. *)
Definition store_call (ev : event) : M unit :=
  fun w st =>
    let st' := {| _engine := _engine st; calls := calls st ++ [ev] |} in
    match fault w (length (calls st)) with
    | Some msg => (inl (SQLAlchemyError msg), st')
    | None => (inr tt, st')
    end.

(** [conn.execute(text(sql), params)] with the rows fetched. *)
Definition execute (q : statement) : M (list row) :=
  store_call (Execute q);;
  (fun w st => (inr (run (db w) q), st)) : M (list row).

(** [with eng.begin() as conn: body]: the transaction is committed when the
    body ends normally and rolled back when it raises. *)
Definition with_begin {A} (eng : engine) (body : M A) : M A :=
  store_call Begin;;
  (fun w st =>
     match body w st with
     | (inr a, st') => (store_call Commit;; ret a) w st'
     | (inl e, st') =>
         (inl e, {| _engine := _engine st'; calls := calls st' ++ [Rollback] |})
     end) : M A.

(** [get_engine] (app.py, lines 10-24). *)
Definition get_engine : M engine :=
  fun w st =>
    match _engine st with
    | Some eng => (inr eng, st)
    | None =>
        match DB_URL w with
        | None | Some EmptyString =>
            (inl (RuntimeError "Missing DB_URL environment variable."), st)
        | Some db_url =>
            let db_url :=
              if Py.startswith db_url "postgres://"
              then "postgresql://" +:+ Py.slice_from (String.length "postgres://") db_url
              else db_url in
            match create_engine_error w db_url with
            | Some msg => (inl (SQLAlchemyError msg), st)
            | None =>
                let eng := Engine db_url in
                (inr eng, {| _engine := Some eng; calls := calls st |})
            end
        end
    end.

(** ** Responses *)

Inductive body :=
| Jsonify (j : json)   (* the framework serialises [j] *)
| Text (s : string).   (* the handler supplies the text *)

Record response := { status : Z; mimetype : string; payload : body }.

(** [jsonify(j)] *)
Definition jsonify (j : json) : response :=
  {| status := 200; mimetype := "application/json"; payload := Jsonify j |}.

(** [return resp, code] *)
Definition with_status (resp : response) (code : Z) : response :=
  {| status := code; mimetype := mimetype resp; payload := payload resp |}.

(** [Response(text, mimetype=mimetype)] *)
Definition Response (text mimetype : string) : response :=
  {| status := 200; mimetype := mimetype; payload := Text text |}.

(** [dict(r)] for a row mapping *)
Definition dict (r : row) : json := JObj (map (fun kv => (fst kv, JStr (snd kv))) r).

(** [r[0]] *)
Definition column0 (r : row) : json :=
  match r with (_, v) :: _ => JStr v | [] => JNull end.

(** [jsonify({"error": str(e)}), 500] *)
Definition error_response (e : exn) : response :=
  with_status (jsonify (JObj [("error", JStr (str_exn e))])) 500.

(** ** The routes (app.py, lines 72-234) *)

(** [/terms_sample] *)
Definition get_terms_sample : M response :=
  eng ← get_engine;
  with_begin eng (
    rows ← execute SelectTermsSample;
    mret (jsonify (JArr (map column0 rows)))).

(** [/terms/<term>/studies] *)
Definition get_studies_by_term (term : string) : M response :=
  eng ← get_engine;
  let term := normalize_term term in
  try_except (
    rows ← with_begin eng (execute (SelectStudiesByTerm term));
    mret (jsonify (JArr (map dict rows))))
  (any_exception (fun e => mret (error_response e))).

(** [/dissociate/terms/<term_a>/<term_b>] *)
Definition functional_dissociation (term_a term_b : string) : M response :=
  eng ← get_engine;
  let term_a_display := Py.lower (Py.strip (Py.replace term_a "_" " ")) in
  let term_b_display := Py.lower (Py.strip (Py.replace term_b "_" " ")) in
  let term_a_db := normalize_term term_a_display in
  let term_b_db := normalize_term term_b_display in
  try_except (
    '(rows_a, rows_b) ← with_begin eng (
      rows_a ← execute (SelectTermANotB term_a_db term_b_db);
      rows_b ← execute (SelectTermBNotA term_a_db term_b_db);
      mret (rows_a, rows_b));
    mret (Response
            (Json.dumps (JObj [
               ("term_a", JStr term_a_display);
               ("term_b", JStr term_b_display);
               ("term_a_not_term_b", JArr (map dict rows_a));
               ("term_b_not_term_a", JArr (map dict rows_b))]))
            "application/json"))
  (any_exception (fun e => mret (error_response e))).

(** [/intersect/terms/<term_a>/<term_b>] *)
Definition intersect_terms (term_a term_b : string) : M response :=
  eng ← get_engine;
  let term_a_display := Py.lower (Py.strip (Py.replace term_a "_" " ")) in
  let term_b_display := Py.lower (Py.strip (Py.replace term_b "_" " ")) in
  let term_a_db := normalize_term term_a_display in
  let term_b_db := normalize_term term_b_display in
  try_except (
    rows ← with_begin eng (execute (SelectTermAAndB term_a_db term_b_db));
    mret (Response
            (Json.dumps (JObj [
               ("term_a", JStr term_a_display);
               ("term_b", JStr term_b_display);
               ("term_a_and_term_b", JArr (map dict rows))]))
            "application/json"))
  (any_exception (fun e => mret (error_response e))).

(** [map(int, coord.split("_"))] unpacked into three names; [None] stands
    for the [ValueError] of [int] or of the unpacking. *)
Definition parse (coord : string) : option (Z * Z * Z) :=
  Py.unpack3 (map Py.int (Py.split coord "_")).

(** [x, y, z = map(int, coord.split("_"))] as a statement; the text of the
    [ValueError] is left empty, no handler reads it. *)
Definition parse_coordinate (coord : string) : M (Z * Z * Z) :=
  match parse coord with
  | Some xyz => mret xyz
  | None => raise (ValueError EmptyString)
  end.

(** The response of the [except ValueError] clause. *)
Definition bad_coordinates : response :=
  with_status
    (jsonify (JObj [("error", JStr "Coordinates must be in x_y_z format and integers.")]))
    400.

(** [f"{x},{y},{z}"] *)
Definition coordinate_echo (x y z : Z) : string :=
  Json.str_of_int x +:+ "," +:+ Json.str_of_int y +:+ "," +:+ Json.str_of_int z.

(** [/dissociate/locations/<coord1>/<coord2>] *)
Definition dissociate_coordinates (coord1 coord2 : string) : M response :=
  eng ← get_engine;
  parsed ← try_except (
      c1 ← parse_coordinate coord1;
      c2 ← parse_coordinate coord2;
      mret (inr (c1, c2)))
    (value_error (mret (inl bad_coordinates)));
  match parsed with
  | inl bad_request => mret bad_request
  | inr ((x1, y1, z1), (x2, y2, z2)) =>
      try_except (
        '(rows_1_not_2, rows_2_not_1) ← with_begin eng (
          rows_1_not_2 ← execute (SelectCoord1Not2 x1 y1 z1 x2 y2 z2);
          rows_2_not_1 ← execute (SelectCoord2Not1 x1 y1 z1 x2 y2 z2);
          mret (rows_1_not_2, rows_2_not_1));
        mret (Response
                (Json.dumps (JObj [
                   ("coordinate_1", JStr (coordinate_echo x1 y1 z1));
                   ("coordinate_2", JStr (coordinate_echo x2 y2 z2));
                   ("coordinate_1_not_coordinate_2", JArr (map dict rows_1_not_2));
                   ("coordinate_2_not_coordinate_1", JArr (map dict rows_2_not_1))]))
                "application/json"))
      (any_exception (fun e => mret (error_response e)))
  end.

(** ** A small corpus used to run the routes *)

Module Sample.

Definition ann (study_id contrast_id term : string) : annotation :=
  {| a_study_id := study_id; a_contrast_id := contrast_id;
     a_term := prefix +:+ term; a_weight := QArith_base.Qmake 1 2 |}.

Definition corpus : database := {|
  annotations_terms :=
    [ann "s1" "1" "pain"; ann "s1" "2" "pain"; ann "s2" "1" "pain";
     ann "s2" "1" "reward"; ann "s3" "1" "reward"; ann "s4" "1" "social cognition"];
  metadata :=
    [{| m_study_id := "s1"; m_title := "One" |}; {| m_study_id := "s2"; m_title := "Two" |};
     {| m_study_id := "s3"; m_title := "Three" |}; {| m_study_id := "s4"; m_title := "Four" |}];
  coordinates :=
    [{| c_study_id := "s1"; c_x := 0; c_y := 0; c_z := 0 |};
     {| c_study_id := "s1"; c_x := 0; c_y := 0; c_z := 0 |};
     {| c_study_id := "s2"; c_x := 0; c_y := 0; c_z := 0 |};
     {| c_study_id := "s2"; c_x := 10; c_y := -10; c_z := 10 |};
     {| c_study_id := "s3"; c_x := 10; c_y := -10; c_z := 10 |}]
|}.

(** A configured service whose store never fails. *)
Definition healthy : world := {|
  DB_URL := Some "postgres://host/ns";
  create_engine_error := fun _ => None;
  db := corpus;
  fault := fun _ => None
|}.

(** The same service when the [n]-th call to the store fails. *)
Definition failing (n : nat) (msg : string) : world := {|
  DB_URL := DB_URL healthy;
  create_engine_error := create_engine_error healthy;
  db := corpus;
  fault := fun k => if Nat.eqb k n then Some msg else None
|}.

Definition fresh : process := {| _engine := None; calls := [] |}.

End Sample.

(** ** Outcomes and traces of the routes

    [first_fault w n k] is the text of the first failure among the [k] calls
    to the store numbered [n], [n+1], ... in world [w], if one of them fails. *)

Fixpoint first_fault (w : world) (n k : nat) : option string :=
  match k with
  | O => None
  | S k' =>
      match fault w n with
      | Some msg => Some msg
      | None => first_fault w (S n) k'
      end
  end.

(** The text echoed for a term and the term value bound in the statement
    (app.py, lines 100-104 and 149-153). *)
Definition display (term : string) : string :=
  Py.lower (Py.strip (Py.replace term "_" " ")).

Definition term_db (term : string) : string := normalize_term (display term).

(** The fields and bodies of the successful responses. *)
Definition dissociation_fields (a b : string) (rows_a rows_b : list study)
  : list (string * json) :=
  [("term_a", JStr a); ("term_b", JStr b);
   ("term_a_not_term_b", JArr (map dict (map study_row rows_a)));
   ("term_b_not_term_a", JArr (map dict (map study_row rows_b)))].

Definition intersection_fields (a b : string) (rows : list study)
  : list (string * json) :=
  [("term_a", JStr a); ("term_b", JStr b);
   ("term_a_and_term_b", JArr (map dict (map study_row rows)))].

Definition locations_fields (c1 c2 : string) (rows_1 rows_2 : list study)
  : list (string * json) :=
  [("coordinate_1", JStr c1); ("coordinate_2", JStr c2);
   ("coordinate_1_not_coordinate_2", JArr (map dict (map study_row rows_1)));
   ("coordinate_2_not_coordinate_1", JArr (map dict (map study_row rows_2)))].

Definition dissociation_body (a b : string) (rows_a rows_b : list study) : json :=
  JObj (dissociation_fields a b rows_a rows_b).

Definition intersection_body (a b : string) (rows : list study) : json :=
  JObj (intersection_fields a b rows).

Definition locations_body (c1 c2 : string) (rows_1 rows_2 : list study) : json :=
  JObj (locations_fields c1 c2 rows_1 rows_2).

(** The calls one [with eng.begin()] block makes when its body executes the
    statements [qs] in order and the first of these calls is number [n]. *)
Fixpoint body_trace (w : world) (n : nat) (qs : list statement) : list event :=
  match qs with
  | [] => [Commit]
  | q :: qs' =>
      Execute q ::
      match fault w n with
      | Some _ => [Rollback]
      | None => body_trace w (S n) qs'
      end
  end.

Definition transaction_trace (w : world) (n : nat) (qs : list statement) : list event :=
  Begin :: match fault w n with Some _ => [] | None => body_trace w (S n) qs end.

(** The statements among some calls. *)
Definition statements (evs : list event) : list statement :=
  omap (fun ev => match ev with Execute q => Some q | _ => None end) evs.

(** ** Notions used to state the properties *)

(** [s.count(c)] for one character. *)
Fixpoint count (s : string) (c : ascii) : nat :=
  match s with
  | EmptyString => 0
  | String d s' => (if Ascii.eqb d c then 1 else 0) + count s' c
  end.

(** A string has no leading blank when it is empty or starts with a
    character that is not whitespace. *)
Definition headed (s : string) : Prop :=
  match s with EmptyString => True | String c _ => Py.isspace c = false end.

(** The data model's invariant on the metadata relation: one row per
    [study_id]. *)
Definition metadata_keyed (d : database) : Prop := NoDup (map m_study_id (metadata d)).

(** A result row taken from a metadata row. *)
Definition from_metadata (d : database) (r : study) : Prop :=
  exists m, m ∈ metadata d /\ r = (m_study_id m, m_title m).

(** The annotation rows of a study under a term. *)
Definition has_row (d : database) (study_id term : string) : Prop :=
  exists b, b ∈ annotations_terms d /\ a_study_id b = study_id /\ a_term b = term.

Definition no_row (d : database) (study_id term : string) : Prop :=
  forall b, b ∈ annotations_terms d -> a_study_id b = study_id -> a_term b <> term.

(** ** The shape of the comparison responses *)

(** The three comparison operations, with their path arguments. *)
Inductive comparison :=
| DissociateTerms (term_a term_b : string)
| IntersectTerms (term_a term_b : string)
| DissociateLocations (coord1 coord2 : string).

Definition handle (op : comparison) : M response :=
  match op with
  | DissociateTerms term_a term_b => functional_dissociation term_a term_b
  | IntersectTerms term_a term_b => intersect_terms term_a term_b
  | DissociateLocations coord1 coord2 => dissociate_coordinates coord1 coord2
  end.

(** The key names the specification fixes for each operation, in order. *)
Definition spec_keys (op : comparison) : list string :=
  match op with
  | DissociateTerms _ _ => ["term_a"; "term_b"; "term_a_not_term_b"; "term_b_not_term_a"]
  | IntersectTerms _ _ => ["term_a"; "term_b"; "term_a_and_term_b"]
  | DissociateLocations _ _ =>
      ["coordinate_1"; "coordinate_2";
       "coordinate_1_not_coordinate_2"; "coordinate_2_not_coordinate_1"]
  end.

(** The specification's echo of a coordinate: [x,y,z] joined by commas. *)
Definition spec_point_echo (p : Z * Z * Z) : string :=
  let '(x, y, z) := p in Json.join "," (map Json.str_of_int [x; y; z]).

(** The two echoed inputs of an operation: the display form of a term, the
    comma-joined form of a coordinate that parses. *)
Definition spec_echo (op : comparison) : option (string * string) :=
  match op with
  | DissociateTerms a b | IntersectTerms a b => Some (display a, display b)
  | DissociateLocations c1 c2 =>
      match parse c1, parse c2 with
      | Some p1, Some p2 => Some (spec_point_echo p1, spec_point_echo p2)
      | _, _ => None
      end
  end.

(** ** The specification's format of a coordinate token *)

(** The specification's integer: blanks, an optional sign, one or more
    decimal digits, blanks.  [decimal 0 ds] is the number the digits [ds]
    write. *)
Definition is_digit (c : ascii) : bool :=
  let n := N_of_ascii c in ((48 <=? n) && (n <=? 57))%N.

Fixpoint all_digits (s : string) : bool :=
  match s with
  | EmptyString => true
  | String c s' => is_digit c && all_digits s'
  end.

Fixpoint decimal (acc : Z) (ds : string) : Z :=
  match ds with
  | EmptyString => acc
  | String c ds' => decimal (10 * acc + (Z.of_N (N_of_ascii c) - 48))%Z ds'
  end.

Definition spec_integer (s : string) (n : Z) : Prop :=
  exists lead sign ds trail,
    s = lead +:+ sign +:+ ds +:+ trail
    /\ Py.all_space lead = true /\ Py.all_space trail = true
    /\ all_digits ds = true /\ ds <> EmptyString
    /\ ((sign = EmptyString \/ sign = "+") /\ n = decimal 0 ds
        \/ sign = "-" /\ n = (- decimal 0 ds)%Z).

(** The specification's coordinate token: three integers separated by the
    delimiter. *)
Definition spec_coordinate (token : string) (x y z : Z) : Prop :=
  exists a b c, token = a +:+ "_" +:+ b +:+ "_" +:+ c
                /\ spec_integer a x /\ spec_integer b y /\ spec_integer c z.

(** What [Py.int] does after the leading blanks and the sign: the numeral,
    which must start with a digit and stay within the digit limit, times the
    sign. *)
Definition unsigned (sign : Z) (r : string) : option Z :=
  match r with
  | EmptyString => None
  | String c _ =>
      match Py.digit c with
      | Some _ =>
          if (N.of_nat (Py.leading_digits r) <=? Py.max_str_digits)%N
          then option_map (Z.mul sign) (Py.digits 0 r)
          else None
      | None => None
      end
  end.

(** The integers the interpreter converts: the specification's integers of
    at most [Py.max_str_digits] digits, leading zeros counted. *)
Definition bounded_integer (s : string) (n : Z) : Prop :=
  exists lead sign ds trail,
    s = lead +:+ sign +:+ ds +:+ trail
    /\ Py.all_space lead = true /\ Py.all_space trail = true
    /\ all_digits ds = true /\ ds <> EmptyString
    /\ (N.of_nat (String.length ds) <= Py.max_str_digits)%N
    /\ ((sign = EmptyString \/ sign = "+") /\ n = decimal 0 ds
        \/ sign = "-" /\ n = (- decimal 0 ds)%Z).

(** A coordinate token of three such integers. *)
Definition bounded_coordinate (token : string) (x y z : Z) : Prop :=
  exists a b c, token = a +:+ "_" +:+ b +:+ "_" +:+ c
                /\ bounded_integer a x /\ bounded_integer b y /\ bounded_integer c z.

(** [s * n]: [n] copies of [s]. *)
Fixpoint repeat_string (s : string) (n : nat) : string :=
  match n with
  | O => EmptyString
  | S n' => s +:+ repeat_string s n'
  end.

(** ** Notions used by the further properties *)

(** The five routes that query the store. *)
Inductive route :=
| TermsSample
| StudiesByTerm (term : string)
| Comparison (op : comparison).

Definition serve (r : route) : M response :=
  match r with
  | TermsSample => get_terms_sample
  | StudiesByTerm term => get_studies_by_term term
  | Comparison op => handle op
  end.

(** The integers that double precision holds exactly, one by one. *)
Definition double_exact (v : Z) : bool := (Z.abs v <=? 2 ^ 53)%Z.

Definition point_exact (p : Z * Z * Z) : bool :=
  let '(x, y, z) := p in double_exact x && double_exact y && double_exact z.

(** Every stored point is in that range. *)
Definition coordinates_exact (d : database) : bool :=
  forallb (fun c => point_exact (c_x c, c_y c, c_z c)) (coordinates d).

(** The number of decimal digits of an integer, sign apart. *)
Definition decimal_digits (n : Z) : nat := String.length (Json.str_of_int (Z.abs n)).

(** A study reports a point when one of its coordinate rows lies on it. *)
Definition reports_point (d : database) (study_id : string) (p : Z * Z * Z) : Prop :=
  exists c, c ∈ coordinates d /\ c_study_id c = study_id
            /\ (c_x c, c_y c, c_z c) = p.

(** The statements a route has to execute, in order; none when a coordinate
    token is malformed. *)
Definition route_statements (r : route) : option (list statement) :=
  match r with
  | TermsSample => Some [SelectTermsSample]
  | StudiesByTerm term => Some [SelectStudiesByTerm (normalize_term term)]
  | Comparison (DissociateTerms a b) =>
      Some [SelectTermANotB (term_db a) (term_db b);
            SelectTermBNotA (term_db a) (term_db b)]
  | Comparison (IntersectTerms a b) => Some [SelectTermAAndB (term_db a) (term_db b)]
  | Comparison (DissociateLocations c1 c2) =>
      match parse c1, parse c2 with
      | Some (x1, y1, z1), Some (x2, y2, z2) =>
          Some [SelectCoord1Not2 x1 y1 z1 x2 y2 z2; SelectCoord2Not1 x1 y1 z1 x2 y2 z2]
      | _, _ => None
      end
  end.

(** * Proofs *)

Example normalize_term_Foo : normalize_term " Foo " = "terms_abstract_tfidf__foo".
Proof. reflexivity. Qed.

(** ** Facts about the string primitives *)

Section StringFacts.

Local Ltac each_char c :=
  destruct c as [[] [] [] [] [] [] [] []]; vm_compute; try reflexivity; try discriminate.

Lemma append_String c s t : String c s +:+ t = String c (s +:+ t).
Proof. reflexivity. Qed.

Lemma isspace_lower_char c : Py.isspace (Py.lower_char c) = Py.isspace c.
Proof. each_char c. Qed.

Lemma lower_char_idem c : Py.lower_char (Py.lower_char c) = Py.lower_char c.
Proof. each_char c. Qed.

Lemma lower_idem s : Py.lower (Py.lower s) = Py.lower s.
Proof. induction s as [|c s IH]; simpl; [reflexivity|]. now rewrite lower_char_idem, IH. Qed.

Lemma lower_app s t : Py.lower (s +:+ t) = Py.lower s +:+ Py.lower t.
Proof.
  induction s as [|c s IH]; [reflexivity|].
  rewrite !append_String. simpl. now rewrite IH.
Qed.

Lemma lstrip_lower s : Py.lstrip (Py.lower s) = Py.lower (Py.lstrip s).
Proof.
  induction s as [|c s IH]; simpl; [reflexivity|].
  rewrite isspace_lower_char. destruct (Py.isspace c); [exact IH | reflexivity].
Qed.

Lemma rstrip_lower s : Py.rstrip (Py.lower s) = Py.lower (Py.rstrip s).
Proof.
  induction s as [|c s IH]; simpl; [reflexivity|].
  rewrite IH, isspace_lower_char.
  destruct (Py.rstrip s); simpl; [destruct (Py.isspace c)|]; reflexivity.
Qed.

Lemma strip_lower s : Py.strip (Py.lower s) = Py.lower (Py.strip s).
Proof. unfold Py.strip. now rewrite lstrip_lower, rstrip_lower. Qed.

Lemma rstrip_idem s : Py.rstrip (Py.rstrip s) = Py.rstrip s.
Proof.
  induction s as [|c s IH]; simpl; [reflexivity|].
  destruct (Py.rstrip s) as [|d r] eqn:E.
  - destruct (Py.isspace c) eqn:Ec; simpl; [reflexivity | now rewrite Ec].
  - change (Py.rstrip (String c (String d r))) with
      (match Py.rstrip (String d r) with
       | EmptyString => if Py.isspace c then EmptyString else String c EmptyString
       | r' => String c r'
       end).
    now rewrite IH.
Qed.

Lemma lstrip_headed s : headed (Py.lstrip s).
Proof.
  induction s as [|c s IH]; simpl; [exact I|].
  destruct (Py.isspace c) eqn:Ec; [exact IH | exact Ec].
Qed.

Lemma headed_lstrip s : headed s -> Py.lstrip s = s.
Proof. destruct s as [|c s]; simpl; [reflexivity|]. now intros ->. Qed.

Lemma rstrip_headed s : headed s -> headed (Py.rstrip s).
Proof.
  destruct s as [|c s]; simpl; [easy|]. intros Hc.
  destruct (Py.rstrip s); [rewrite Hc|]; exact Hc.
Qed.

Lemma strip_idem s : Py.strip (Py.strip s) = Py.strip s.
Proof.
  unfold Py.strip.
  rewrite (headed_lstrip (Py.rstrip (Py.lstrip s)))
    by apply rstrip_headed, lstrip_headed.
  apply rstrip_idem.
Qed.

Lemma strip_headed s : headed (Py.strip s).
Proof. apply rstrip_headed, lstrip_headed. Qed.

Lemma strip_rstrip_fixed s : Py.rstrip (Py.strip s) = Py.strip s.
Proof. apply rstrip_idem. Qed.

Lemma rstrip_app s t :
  Py.rstrip t <> EmptyString -> Py.rstrip (s +:+ t) = s +:+ Py.rstrip t.
Proof.
  intros Ht. induction s as [|c s IH]; [reflexivity|].
  rewrite !append_String. cbn [Py.rstrip]. rewrite IH.
  destruct (s +:+ Py.rstrip t) eqn:E; [|reflexivity].
  destruct s; cbn in E; [contradiction | discriminate].
Qed.

Lemma startswith_app p s : Py.startswith (p +:+ s) p = true.
Proof.
  induction p as [|c p IH]; [reflexivity|].
  rewrite append_String. cbn. now rewrite Ascii.eqb_refl.
Qed.

Lemma startswith_inv s p :
  Py.startswith s p = true -> exists r, s = p +:+ r.
Proof.
  revert s. induction p as [|c p IH]; intros s H; cbn in *.
  - now exists s.
  - destruct s as [|d s]; [discriminate|].
    destruct (Ascii.eqb c d) eqn:E; [|discriminate].
    apply Ascii.eqb_eq in E. subst d. destruct (IH _ H) as [r ->].
    exists r. now rewrite append_String.
Qed.

End StringFacts.

(** ** The normaliser: totality, prefix, idempotence *)

Lemma normalize_term_prefixed x : Py.startswith (normalize_term x) prefix = true.
Proof.
  unfold normalize_term.
  destruct (Py.startswith (Py.lower (Py.strip x)) prefix) eqn:E; cbn [negb].
  - exact E.
  - apply startswith_app.
Qed.

(** The trimmed, lower-cased text is a fixed point of both steps. *)
Lemma lower_strip_fixed x :
  Py.lower (Py.strip (Py.lower (Py.strip x))) = Py.lower (Py.strip x).
Proof. now rewrite strip_lower, strip_idem, lower_idem. Qed.

Lemma strip_prefix_app t :
  Py.rstrip t = t -> Py.strip (prefix +:+ t) = prefix +:+ t.
Proof.
  intros Ht. unfold Py.strip.
  change (Py.lstrip (prefix +:+ t)) with (prefix +:+ t).
  destruct t as [|c t].
  - reflexivity.
  - rewrite rstrip_app; rewrite Ht; [reflexivity | discriminate].
Qed.

Lemma normalize_term_idem x : normalize_term (normalize_term x) = normalize_term x.
Proof.
  set (t := Py.lower (Py.strip x)).
  assert (Ht : Py.lower (Py.strip t) = t) by apply lower_strip_fixed.
  assert (Hl : Py.lower t = t) by apply lower_idem.
  assert (Hr : Py.rstrip t = t).
  { unfold t. rewrite <- strip_lower. apply strip_rstrip_fixed. }
  assert (Hx : normalize_term x
               = if Py.startswith t prefix then t else prefix +:+ t).
  { unfold normalize_term. fold t. now destruct (Py.startswith t prefix). }
  rewrite Hx. destruct (Py.startswith t prefix) eqn:E; unfold normalize_term.
  - now rewrite Ht, E.
  - rewrite (strip_prefix_app t Hr), lower_app, Hl.
    change (Py.lower prefix) with prefix.
    now rewrite startswith_app.
Qed.

(** C6.  [normalize_term] is a total function that is idempotent, gives the
    same result for [" Foo "] and ["foo"] (surrounding whitespace and letter
    case do not matter), and always returns a string that starts with the
    storage prefix [terms_abstract_tfidf__]. *)
Theorem C6_normalize_term_idempotent_prefixed :
  (forall x, normalize_term (normalize_term x) = normalize_term x)
  /\ normalize_term " Foo " = normalize_term "foo"
  /\ normalize_term "foo" = normalize_term (normalize_term "foo")
  /\ (forall x, exists rest, normalize_term x = prefix +:+ rest)
  /\ (forall x, normalize_term (Py.lower (Py.strip x)) = normalize_term x).
Proof.
  split; [exact normalize_term_idem|].
  split; [reflexivity|]. split; [reflexivity|].
  split.
  - intros x. apply startswith_inv, normalize_term_prefixed.
  - intros x. unfold normalize_term. now rewrite lower_strip_fixed.
Qed.

(** ** The primitives on examples *)

Example dumps_sample :
  Json.dumps (JObj [("a", JArr [JInt (-12); JObj [("c", JNull)]]); ("d", JArr [])])
  = Json.join Json.dquote ["{"; "a"; ": [-12, {"; "c"; ": null}], "; "d"; ": []}"].
Proof. reflexivity. Qed.

Example escape_sample :
  Json.escape (String "010"%char (String "233"%char (String "127"%char "a/ b")))
  = Json.backslash "n" +:+ Json.backslash "u00e9" +:+ Json.backslash "u007fa/ b".
Proof. reflexivity. Qed.

Example int_samples :
  map Py.int [" -1 "; "+1"; "007"; "-0"; ""; "-"; "+-1"; "- 1"; "1 2"; "0x1"; "1.0";
              String "028"%char "1"; String "160"%char "1"]
  = [Some (-1)%Z; Some 1%Z; Some 7%Z; Some 0%Z; None; None; None; None; None; None; None;
     None; Some 1%Z].
Proof. reflexivity. Qed.

Example split_samples :
  Py.split "a__b" "_" = ["a"; ""; "b"] /\ Py.split "" "_" = [""] /\ Py.split "_" "_" = [""; ""].
Proof. repeat split. Qed.

(** ** Running the routes *)

Section Running.

Variables (w : world) (st st1 : process) (eng : engine).
Hypothesis engine_ready : get_engine w st = (inr eng, st1).

Lemma get_engine_calls : calls st1 = calls st.
Proof using engine_ready.
  revert engine_ready. unfold get_engine.
  destruct (_engine st); [intros [= _ <-]; reflexivity|].
  destruct (DB_URL w) as [[|c u]|]; try discriminate.
  match goal with |- context [create_engine_error w ?u] =>
    destruct (create_engine_error w u) end; [discriminate|].
  intros [= _ <-]. reflexivity.
Qed.

Local Ltac run_route :=
  rewrite engine_ready; cbn [fst snd calls _engine];
  rewrite ?get_engine_calls;
  repeat (rewrite ?length_app; cbn [length Nat.add calls _engine];
          rewrite ?Nat.add_1_r;
          match goal with
          | |- context [fault w ?n] => destruct (fault w n); cbn [fst snd calls _engine]
          end);
  rewrite ?get_engine_calls, <- ?app_assoc;
  try reflexivity.

Local Ltac unfold_route :=
  unfold first_fault, transaction_trace, body_trace, with_begin, execute, try_except,
    any_exception, store_call, mbind, M_bind, bind, mret, M_ret, ret.

Lemma get_terms_sample_outcome :
  fst (get_terms_sample w st) =
    match first_fault w (length (calls st)) 3 with
    | Some msg => inl (SQLAlchemyError msg)
    | None => inr (jsonify (JArr (map JStr (Sql.terms_sample (db w)))))
    end.
Proof using engine_ready.
  unfold get_terms_sample. unfold_route. run_route.
  unfold run. rewrite map_map. reflexivity.
Qed.

Lemma get_studies_by_term_outcome term :
  fst (get_studies_by_term term w st) =
    match first_fault w (length (calls st)) 3 with
    | Some msg => inr (error_response (SQLAlchemyError msg))
    | None =>
        inr (jsonify (JArr (map dict (map study_row
               (Sql.studies_by_term (db w) (normalize_term term))))))
    end.
Proof using engine_ready. unfold get_studies_by_term. unfold_route. run_route. Qed.

Lemma get_studies_by_term_calls term :
  calls (snd (get_studies_by_term term w st)) =
    calls st ++ transaction_trace w (length (calls st))
                  [SelectStudiesByTerm (normalize_term term)].
Proof using engine_ready. unfold get_studies_by_term. unfold_route. run_route. Qed.

Lemma functional_dissociation_outcome term_a term_b :
  fst (functional_dissociation term_a term_b w st) =
    match first_fault w (length (calls st)) 4 with
    | Some msg => inr (error_response (SQLAlchemyError msg))
    | None =>
        inr (Response
               (Json.dumps (dissociation_body (display term_a) (display term_b)
                  (Sql.term_a_not_b (db w) (term_db term_a) (term_db term_b))
                  (Sql.term_b_not_a (db w) (term_db term_a) (term_db term_b))))
               "application/json")
    end.
Proof using engine_ready. unfold functional_dissociation. unfold_route. run_route. Qed.

Lemma functional_dissociation_calls term_a term_b :
  calls (snd (functional_dissociation term_a term_b w st)) =
    calls st ++ transaction_trace w (length (calls st))
                  [SelectTermANotB (term_db term_a) (term_db term_b);
                   SelectTermBNotA (term_db term_a) (term_db term_b)].
Proof using engine_ready. unfold functional_dissociation. unfold_route. run_route. Qed.

Lemma intersect_terms_outcome term_a term_b :
  fst (intersect_terms term_a term_b w st) =
    match first_fault w (length (calls st)) 3 with
    | Some msg => inr (error_response (SQLAlchemyError msg))
    | None =>
        inr (Response
               (Json.dumps (intersection_body (display term_a) (display term_b)
                  (Sql.term_a_and_b (db w) (term_db term_a) (term_db term_b))))
               "application/json")
    end.
Proof using engine_ready. unfold intersect_terms. unfold_route. run_route. Qed.

Lemma intersect_terms_calls term_a term_b :
  calls (snd (intersect_terms term_a term_b w st)) =
    calls st ++ transaction_trace w (length (calls st))
                  [SelectTermAAndB (term_db term_a) (term_db term_b)].
Proof using engine_ready. unfold intersect_terms. unfold_route. run_route. Qed.

Lemma dissociate_coordinates_malformed coord1 coord2 :
  parse coord1 = None \/ parse coord2 = None ->
  dissociate_coordinates coord1 coord2 w st = (inr bad_coordinates, st1).
Proof using engine_ready.
  intros H. unfold dissociate_coordinates, parse_coordinate. unfold_route.
  rewrite engine_ready.
  destruct (parse coord1) as [[[x1 y1] z1]|], (parse coord2) as [[[x2 y2] z2]|];
    try reflexivity.
  now destruct H.
Qed.

Lemma dissociate_coordinates_outcome coord1 coord2 x1 y1 z1 x2 y2 z2 :
  parse coord1 = Some (x1, y1, z1) -> parse coord2 = Some (x2, y2, z2) ->
  fst (dissociate_coordinates coord1 coord2 w st) =
    match first_fault w (length (calls st)) 4 with
    | Some msg => inr (error_response (SQLAlchemyError msg))
    | None =>
        inr (Response
               (Json.dumps (locations_body (coordinate_echo x1 y1 z1) (coordinate_echo x2 y2 z2)
                  (Sql.coord_1_not_2 (db w) x1 y1 z1 x2 y2 z2)
                  (Sql.coord_2_not_1 (db w) x1 y1 z1 x2 y2 z2)))
               "application/json")
    end.
Proof using engine_ready.
  intros H1 H2. unfold dissociate_coordinates, parse_coordinate. unfold_route.
  rewrite H1, H2. unfold raise. run_route.
Qed.

Lemma dissociate_coordinates_calls coord1 coord2 x1 y1 z1 x2 y2 z2 :
  parse coord1 = Some (x1, y1, z1) -> parse coord2 = Some (x2, y2, z2) ->
  calls (snd (dissociate_coordinates coord1 coord2 w st)) =
    calls st ++ transaction_trace w (length (calls st))
                  [SelectCoord1Not2 x1 y1 z1 x2 y2 z2; SelectCoord2Not1 x1 y1 z1 x2 y2 z2].
Proof using engine_ready.
  intros H1 H2. unfold dissociate_coordinates, parse_coordinate. unfold_route.
  rewrite H1, H2. unfold raise. run_route.
Qed.

End Running.

(** ** Facts about the statements *)

Section SqlFacts.

Context {A : Type}.

Lemma limit_length (n : N) (rows : list A) : (N.of_nat (length (Sql.limit n rows)) <= n)%N.
Proof.
  revert n. induction rows as [|r rows IH]; intros n; cbn [Sql.limit length]; [lia|].
  destruct (N.eqb_spec n 0); cbn [length]; [lia|].
  specialize (IH (N.pred n)). lia.
Qed.

Lemma limit_elem_of (n : N) (rows : list A) x : x ∈ Sql.limit n rows -> x ∈ rows.
Proof.
  revert n. induction rows as [|r rows IH]; intros n; cbn [Sql.limit]; [easy|].
  destruct (n =? 0)%N; [intros H; inversion H|].
  rewrite !elem_of_cons. intros [->|H]; [now left | right; eauto].
Qed.

Lemma limit_map {B} (f : A -> B) (n : N) (rows : list A) :
  map f (Sql.limit n rows) = Sql.limit n (map f rows).
Proof.
  revert n. induction rows as [|r rows IH]; intros n; cbn [Sql.limit map]; [reflexivity|].
  destruct (n =? 0)%N; [reflexivity|]. cbn [map]. now rewrite IH.
Qed.

Lemma limit_NoDup (n : N) (rows : list A) : NoDup rows -> NoDup (Sql.limit n rows).
Proof.
  intros H. revert n. induction H as [|r rows Hr H IH]; intros n; cbn [Sql.limit].
  - constructor.
  - destruct (n =? 0)%N; constructor; [|apply IH].
    intros Hin. apply Hr. eapply limit_elem_of, Hin.
Qed.

(** Projecting rows without duplicates by a function that separates them
    gives a list without duplicates. *)
Lemma map_NoDup {B} (f : A -> B) (rows : list A) :
  (forall x y, x ∈ rows -> y ∈ rows -> f x = f y -> x = y) ->
  NoDup rows -> NoDup (map f rows).
Proof.
  intros Hinj H. induction H as [|r rows Hr H IH]; cbn [map]; constructor.
  - intros Hin. apply list_elem_of_In, in_map_iff in Hin as (y & Hy & Hin).
    apply list_elem_of_In in Hin.
    assert (y = r) by (apply Hinj; [now right | now left | exact Hy]).
    subst y. contradiction.
  - apply IH. intros x y Hx Hy. apply Hinj; now right.
Qed.

End SqlFacts.

Lemma has_term_true d study_id term :
  Sql.has_term d study_id term = true <->
  exists b, b ∈ annotations_terms d /\ a_study_id b = study_id /\ a_term b = term.
Proof.
  unfold Sql.has_term. rewrite existsb_exists. split.
  - intros (b & Hb & H). apply andb_true_iff in H as [H1 H2].
    apply String.eqb_eq in H1, H2. exists b. now rewrite <- list_elem_of_In in Hb.
  - intros (b & Hb & H1 & H2). exists b. rewrite <- list_elem_of_In. split; [exact Hb|].
    apply andb_true_iff. now rewrite !String.eqb_eq.
Qed.

Lemma has_term_false d study_id term :
  Sql.has_term d study_id term = false <->
  forall b, b ∈ annotations_terms d -> a_study_id b = study_id -> a_term b <> term.
Proof.
  rewrite <- not_true_iff_false, has_term_true. split.
  - intros H b Hb H1 H2. apply H. now exists b.
  - intros H (b & Hb & H1 & H2). exact (H b Hb H1 H2).
Qed.

Lemma has_point_true d study_id x y z :
  Sql.has_point d study_id x y z = true <->
  exists c, c ∈ coordinates d /\ c_study_id c = study_id
            /\ c_x c = x /\ c_y c = y /\ c_z c = z.
Proof.
  unfold Sql.has_point, Sql.at_point. rewrite existsb_exists. split.
  - intros (c & Hc & H). rewrite !andb_true_iff, String.eqb_eq, !Z.eqb_eq in H.
    exists c. rewrite list_elem_of_In. tauto.
  - intros (c & Hc & H). exists c.
    rewrite !andb_true_iff, String.eqb_eq, !Z.eqb_eq, <- list_elem_of_In. tauto.
Qed.

Lemma has_point_false d study_id x y z :
  Sql.has_point d study_id x y z = false <->
  forall c, c ∈ coordinates d -> c_study_id c = study_id ->
            ~ (c_x c = x /\ c_y c = y /\ c_z c = z).
Proof.
  rewrite <- not_true_iff_false, has_point_true. split.
  - intros H c Hc H1 H2. apply H. exists c. tauto.
  - intros H (c & Hc & H1 & H2). exact (H c Hc H1 H2).
Qed.

Lemma NoDup_map_eq {A B} (f : A -> B) (l : list A) x y :
  NoDup (map f l) -> x ∈ l -> y ∈ l -> f x = f y -> x = y.
Proof.
  induction l as [|a l IH]; cbn [map]; [intros _ H; inversion H|].
  rewrite NoDup_cons, !elem_of_cons. intros [Ha Hl] [->|Hx] [->|Hy] E.
  - reflexivity.
  - exfalso. apply Ha. rewrite E. apply list_elem_of_In, in_map, list_elem_of_In, Hy.
  - exfalso. apply Ha. rewrite <- E. apply list_elem_of_In, in_map, list_elem_of_In, Hx.
  - now apply IH.
Qed.

Lemma keyed_rows_NoDup d (rows : list study) :
  metadata_keyed d -> (forall r, r ∈ rows -> from_metadata d r) ->
  NoDup rows -> NoDup (map fst rows).
Proof.
  intros Hkey Hfrom. apply map_NoDup.
  intros x y Hx Hy E.
  destruct (Hfrom x Hx) as (m1 & Hm1 & ->), (Hfrom y Hy) as (m2 & Hm2 & ->).
  cbn [fst] in E.
  now rewrite (NoDup_map_eq m_study_id (metadata d) m1 m2 Hkey Hm1 Hm2 E).
Qed.

Lemma limit_distinct_NoDup (n : N) (rows : list study) :
  NoDup (Sql.limit n (Sql.distinct rows)).
Proof. apply limit_NoDup, NoDup_remove_dups. Qed.

Lemma limit_distinct_elem_of (n : N) (rows : list study) r :
  r ∈ Sql.limit n (Sql.distinct rows) -> r ∈ rows.
Proof. intros H. eapply elem_of_remove_dups, limit_elem_of, H. Qed.

(** Membership in the result of each statement. *)

Local Ltac open_row H :=
  apply limit_distinct_elem_of in H;
  repeat (apply list_elem_of_bind in H as (? & H & ?));
  match type of H with
  | _ ∈ (if ?c then _ else _) =>
      destruct c eqn:?; [apply list_elem_of_singleton in H | inversion H]
  end;
  repeat match goal with
    | E : (_ && _)%bool = true |- _ => apply andb_true_iff in E as [? ?]
    | E : negb _ = true |- _ => apply negb_true_iff in E
    | E : (_ =? _)%string = true |- _ => apply String.eqb_eq in E
    end.

Lemma studies_by_term_elem d term r :
  r ∈ Sql.studies_by_term d term ->
  from_metadata d r /\ Sql.has_term d (fst r) term = true.
Proof.
  intros H. unfold Sql.studies_by_term in H. open_row H. subst r. cbn [fst].
  split.
  - eexists; split; [eassumption|]. congruence.
  - apply has_term_true. eauto.
Qed.

Lemma term_a_not_b_elem d term_a term_b r :
  r ∈ Sql.term_a_not_b d term_a term_b ->
  from_metadata d r /\ Sql.has_term d (fst r) term_a = true
  /\ Sql.has_term d (fst r) term_b = false.
Proof.
  intros H. unfold Sql.term_a_not_b in H. open_row H. subst r. cbn [fst].
  split; [|split].
  - eexists; split; [eassumption|]. reflexivity.
  - apply has_term_true. eauto.
  - congruence.
Qed.

Lemma term_b_not_a_elem d term_a term_b r :
  r ∈ Sql.term_b_not_a d term_a term_b ->
  from_metadata d r /\ Sql.has_term d (fst r) term_b = true
  /\ Sql.has_term d (fst r) term_a = false.
Proof.
  intros H. unfold Sql.term_b_not_a in H. open_row H. subst r. cbn [fst].
  split; [|split].
  - eexists; split; [eassumption|]. reflexivity.
  - apply has_term_true. eauto.
  - congruence.
Qed.

Lemma term_a_and_b_elem d term_a term_b r :
  r ∈ Sql.term_a_and_b d term_a term_b ->
  from_metadata d r /\ Sql.has_term d (fst r) term_a = true
  /\ Sql.has_term d (fst r) term_b = true.
Proof.
  intros H. unfold Sql.term_a_and_b in H. open_row H. subst r. cbn [fst].
  split; [|split].
  - eexists; split; [eassumption|]. reflexivity.
  - apply has_term_true.
    match goal with
    | Ha : ?a ∈ annotations_terms d, Ht : a_term ?a = term_a |- _ =>
        exists a; split; [exact Ha | split; congruence]
    end.
  - apply has_term_true.
    match goal with
    | Hb : ?b ∈ annotations_terms d, Ht : a_term ?b = term_b |- _ =>
        exists b; split; [exact Hb | split; congruence]
    end.
Qed.

Lemma coord_1_not_2_elem d x1 y1 z1 x2 y2 z2 r :
  r ∈ Sql.coord_1_not_2 d x1 y1 z1 x2 y2 z2 ->
  from_metadata d r /\ Sql.has_point d (fst r) x1 y1 z1 = true
  /\ Sql.has_point d (fst r) x2 y2 z2 = false.
Proof.
  intros H. unfold Sql.coord_1_not_2 in H. open_row H. subst r. cbn [fst].
  split; [|split].
  - eexists; split; [eassumption|]. reflexivity.
  - unfold Sql.has_point. apply existsb_exists. eexists.
    split; [apply list_elem_of_In; eassumption|].
    apply andb_true_iff. split; [apply String.eqb_eq; congruence | assumption].
  - congruence.
Qed.

Lemma coord_2_not_1_elem d x1 y1 z1 x2 y2 z2 r :
  r ∈ Sql.coord_2_not_1 d x1 y1 z1 x2 y2 z2 ->
  from_metadata d r /\ Sql.has_point d (fst r) x2 y2 z2 = true
  /\ Sql.has_point d (fst r) x1 y1 z1 = false.
Proof.
  intros H. unfold Sql.coord_2_not_1 in H. open_row H. subst r. cbn [fst].
  split; [|split].
  - eexists; split; [eassumption|]. reflexivity.
  - unfold Sql.has_point. apply existsb_exists. eexists.
    split; [apply list_elem_of_In; eassumption|].
    apply andb_true_iff. split; [apply String.eqb_eq; congruence | assumption].
  - congruence.
Qed.

(** A route that cannot obtain its engine raises; it returns no response. *)
Lemma route_without_engine {A} (k : engine -> M A) w st e st1 :
  get_engine w st = (inl e, st1) -> fst ((eng ← get_engine; k eng) w st) = inl e.
Proof. intros H. unfold mbind, M_bind, bind. now rewrite H. Qed.

Lemma study_ids_elem (rows : list study) study_id :
  study_id ∈ map fst rows -> exists r, r ∈ rows /\ fst r = study_id.
Proof.
  intros H. apply list_elem_of_In, in_map_iff in H as (r & Hr & H).
  exists r. now rewrite list_elem_of_In.
Qed.

(** The two lists of a term dissociation, as the statements compute them. *)
Lemma term_dissociation_lists d ta tb :
  metadata_keyed d ->
  NoDup (map fst (Sql.term_a_not_b d ta tb))
  /\ NoDup (map fst (Sql.term_b_not_a d ta tb))
  /\ (forall study_id, study_id ∈ map fst (Sql.term_a_not_b d ta tb) ->
        has_row d study_id ta /\ no_row d study_id tb)
  /\ (forall study_id, study_id ∈ map fst (Sql.term_b_not_a d ta tb) ->
        has_row d study_id tb /\ no_row d study_id ta).
Proof.
  intros Hkey. repeat split.
  - apply (keyed_rows_NoDup d); [exact Hkey | | apply limit_distinct_NoDup].
    intros r Hr. now apply term_a_not_b_elem in Hr.
  - apply (keyed_rows_NoDup d); [exact Hkey | | apply limit_distinct_NoDup].
    intros r Hr. now apply term_b_not_a_elem in Hr.
  - apply study_ids_elem in H as (r & Hr & <-).
    apply term_a_not_b_elem in Hr as (_ & H & _).
    exact (proj1 (has_term_true _ _ _) H).
  - apply study_ids_elem in H as (r & Hr & <-).
    apply term_a_not_b_elem in Hr as (_ & _ & H).
    exact (proj1 (has_term_false _ _ _) H).
  - apply study_ids_elem in H as (r & Hr & <-).
    apply term_b_not_a_elem in Hr as (_ & H & _).
    exact (proj1 (has_term_true _ _ _) H).
  - apply study_ids_elem in H as (r & Hr & <-).
    apply term_b_not_a_elem in Hr as (_ & _ & H).
    exact (proj1 (has_term_false _ _ _) H).
Qed.

(** ** The result lists of the comparisons *)

(** C1, counterexample.  Dissociating ["social_cognition"] from ["pain"]
    over the sample corpus, whose metadata has one row per [study_id], lists
    study [s4] as A-not-B; [s4] has no annotation row whose term is the
    normalised form of A, [normalize_term "social_cognition"]: its row is
    under the normalised display form, with a space. *)
Lemma C1_listed_study_without_row_for_A :
  fst (functional_dissociation "social_cognition" "pain" Sample.healthy Sample.fresh)
    = inr (Response
             (Json.dumps (dissociation_body "social cognition" "pain"
                            [("s4", "Four")] [("s1", "One"); ("s2", "Two")]))
             "application/json")
  /\ metadata_keyed Sample.corpus
  /\ normalize_term "social_cognition" = "terms_abstract_tfidf__social_cognition"
  /\ ~ has_row Sample.corpus "s4" (normalize_term "social_cognition")
  /\ has_row Sample.corpus "s4" (normalize_term (display "social_cognition")).
Proof.
  split; [vm_compute; reflexivity|].
  split; [unfold metadata_keyed; apply (bool_decide_unpack _); vm_compute; exact I|].
  split; [reflexivity|]. split.
  - intros H. apply has_term_true in H. vm_compute in H. discriminate.
  - apply has_term_true. vm_compute. reflexivity.
Qed.

(** C1, amended.  Whenever the term dissociation of [term_a] and [term_b]
    answers 200, over a store whose metadata has one row per [study_id], its
    two lists each hold no [study_id] twice; every [study_id] of the A-not-B
    list has an annotation row whose term is the normalised display form of
    A, [term_db term_a = normalize_term (display term_a)], and no annotation
    row whose term is the normalised display form of B, and symmetrically
    for the B-not-A list. *)
Theorem C1_dissociation_lists w st term_a term_b resp :
  metadata_keyed (db w) ->
  fst (functional_dissociation term_a term_b w st) = inr resp ->
  status resp = 200%Z ->
  exists rows_a rows_b : list study,
    payload resp
      = Text (Json.dumps (dissociation_body (display term_a) (display term_b) rows_a rows_b))
    /\ NoDup (map fst rows_a) /\ NoDup (map fst rows_b)
    /\ (forall study_id, study_id ∈ map fst rows_a ->
          has_row (db w) study_id (term_db term_a)
          /\ no_row (db w) study_id (term_db term_b))
    /\ (forall study_id, study_id ∈ map fst rows_b ->
          has_row (db w) study_id (term_db term_b)
          /\ no_row (db w) study_id (term_db term_a)).
Proof.
  intros Hkey Hrun Hstatus.
  destruct (get_engine w st) as [[e|eng] st1] eqn:Heng.
  - unfold functional_dissociation in Hrun.
    rewrite (route_without_engine _ w st e st1 Heng) in Hrun. discriminate.
  - rewrite (functional_dissociation_outcome w st st1 eng Heng) in Hrun.
    destruct (first_fault w (length (calls st)) 4).
    + injection Hrun as <-. discriminate.
    + injection Hrun as <-.
      exists (Sql.term_a_not_b (db w) (term_db term_a) (term_db term_b)),
             (Sql.term_b_not_a (db w) (term_db term_a) (term_db term_b)).
      split; [reflexivity|]. now apply term_dissociation_lists.
Qed.

Lemma C1_dissociation_lists_witness :
  exists rows_a rows_b : list study,
    Text (Json.dumps (dissociation_body "pain" "reward" [("s1", "One")] [("s3", "Three")]))
      = Text (Json.dumps (dissociation_body (display "Pain") (display "reward") rows_a rows_b))
    /\ NoDup (map fst rows_a) /\ NoDup (map fst rows_b)
    /\ (forall study_id, study_id ∈ map fst rows_a ->
          has_row Sample.corpus study_id (term_db "Pain")
          /\ no_row Sample.corpus study_id (term_db "reward"))
    /\ (forall study_id, study_id ∈ map fst rows_b ->
          has_row Sample.corpus study_id (term_db "reward")
          /\ no_row Sample.corpus study_id (term_db "Pain")).
Proof.
  apply (C1_dissociation_lists Sample.healthy Sample.fresh "Pain" "reward"
           (Response (Json.dumps (dissociation_body "pain" "reward"
                        [("s1", "One")] [("s3", "Three")])) "application/json")).
  - unfold metadata_keyed. apply (bool_decide_unpack _). vm_compute. exact I.
  - vm_compute. reflexivity.
  - reflexivity.
Defined.

(** The coordinate dissociation obeys the same anti-join: a study of the
    1-not-2 list reports point 1 and does not report point 2, and
    conversely; neither list holds a [study_id] twice. *)
Lemma coordinate_dissociation_lists d x1 y1 z1 x2 y2 z2 :
  metadata_keyed d ->
  NoDup (map fst (Sql.coord_1_not_2 d x1 y1 z1 x2 y2 z2))
  /\ NoDup (map fst (Sql.coord_2_not_1 d x1 y1 z1 x2 y2 z2))
  /\ (forall r, r ∈ Sql.coord_1_not_2 d x1 y1 z1 x2 y2 z2 ->
        Sql.has_point d (fst r) x1 y1 z1 = true /\ Sql.has_point d (fst r) x2 y2 z2 = false)
  /\ (forall r, r ∈ Sql.coord_2_not_1 d x1 y1 z1 x2 y2 z2 ->
        Sql.has_point d (fst r) x2 y2 z2 = true /\ Sql.has_point d (fst r) x1 y1 z1 = false).
Proof.
  intros Hkey. split; [|split; [|split]].
  - apply (keyed_rows_NoDup d); [exact Hkey | | apply limit_distinct_NoDup].
    intros r Hr. now apply coord_1_not_2_elem in Hr.
  - apply (keyed_rows_NoDup d); [exact Hkey | | apply limit_distinct_NoDup].
    intros r Hr. now apply coord_2_not_1_elem in Hr.
  - intros r Hr. now apply coord_1_not_2_elem in Hr.
  - intros r Hr. now apply coord_2_not_1_elem in Hr.
Qed.

(** C3, counterexample.  Intersecting ["social_cognition"] with
    ["social cognition"] over the sample corpus lists study [s4], which has
    no annotation row whose term is the normalised form of A,
    [normalize_term "social_cognition"]. *)
Lemma C3_listed_study_without_row_for_A :
  fst (intersect_terms "social_cognition" "social cognition" Sample.healthy Sample.fresh)
    = inr (Response
             (Json.dumps (intersection_body "social cognition" "social cognition"
                            [("s4", "Four")]))
             "application/json")
  /\ normalize_term "social_cognition" = "terms_abstract_tfidf__social_cognition"
  /\ ~ has_row Sample.corpus "s4" (normalize_term "social_cognition")
  /\ has_row Sample.corpus "s4" (normalize_term (display "social_cognition")).
Proof.
  split; [vm_compute; reflexivity|]. split; [reflexivity|]. split.
  - intros H. apply has_term_true in H. vm_compute in H. discriminate.
  - apply has_term_true. vm_compute. reflexivity.
Qed.

(** C3, amended.  Whenever the term intersection of [term_a] and [term_b]
    answers 200, every [study_id] of its list has an annotation row whose
    term is the normalised display form of A,
    [term_db term_a = normalize_term (display term_a)], and an annotation
    row whose term is the normalised display form of B. *)
Theorem C3_intersection_list w st term_a term_b resp :
  fst (intersect_terms term_a term_b w st) = inr resp ->
  status resp = 200%Z ->
  exists rows : list study,
    payload resp
      = Text (Json.dumps (intersection_body (display term_a) (display term_b) rows))
    /\ (forall study_id, study_id ∈ map fst rows ->
          has_row (db w) study_id (term_db term_a)
          /\ has_row (db w) study_id (term_db term_b)).
Proof.
  intros Hrun Hstatus.
  destruct (get_engine w st) as [[e|eng] st1] eqn:Heng.
  - unfold intersect_terms in Hrun.
    rewrite (route_without_engine _ w st e st1 Heng) in Hrun. discriminate.
  - rewrite (intersect_terms_outcome w st st1 eng Heng) in Hrun.
    destruct (first_fault w (length (calls st)) 3).
    + injection Hrun as <-. discriminate.
    + injection Hrun as <-.
      exists (Sql.term_a_and_b (db w) (term_db term_a) (term_db term_b)).
      split; [reflexivity|].
      intros study_id H. apply study_ids_elem in H as (r & Hr & <-).
      apply term_a_and_b_elem in Hr as (_ & Ha & Hb).
      split; [exact (proj1 (has_term_true _ _ _) Ha) | exact (proj1 (has_term_true _ _ _) Hb)].
Qed.

Lemma C3_intersection_list_witness :
  exists rows : list study,
    Text (Json.dumps (intersection_body "pain" "reward" [("s2", "Two")]))
      = Text (Json.dumps (intersection_body (display "Pain") (display " reward") rows))
    /\ (forall study_id, study_id ∈ map fst rows ->
          has_row Sample.corpus study_id (term_db "Pain")
          /\ has_row Sample.corpus study_id (term_db " reward")).
Proof.
  apply (C3_intersection_list Sample.healthy Sample.fresh "Pain" " reward"
           (Response (Json.dumps (intersection_body "pain" "reward" [("s2", "Two")]))
                     "application/json")).
  - vm_compute. reflexivity.
  - reflexivity.
Defined.

(** C7.  The rows a statement returns are capped: at most 10,000 for the
    term lookup, 1,000 for each direction of a term dissociation, 100 for
    each direction of a coordinate dissociation and 100 for a term
    intersection. *)
Theorem C7_result_caps d term term_a term_b x1 y1 z1 x2 y2 z2 :
  (N.of_nat (length (run d (SelectStudiesByTerm term))) <= 10000)%N
  /\ (N.of_nat (length (run d (SelectTermANotB term_a term_b))) <= 1000)%N
  /\ (N.of_nat (length (run d (SelectTermBNotA term_a term_b))) <= 1000)%N
  /\ (N.of_nat (length (run d (SelectCoord1Not2 x1 y1 z1 x2 y2 z2))) <= 100)%N
  /\ (N.of_nat (length (run d (SelectCoord2Not1 x1 y1 z1 x2 y2 z2))) <= 100)%N
  /\ (N.of_nat (length (run d (SelectTermAAndB term_a term_b))) <= 100)%N.
Proof.
  unfold run. rewrite !length_map. repeat split; apply limit_length.
Qed.

(** ** The shape of the comparison responses *)

(** C9.  Every successful (status 200) dissociation or intersection
    response carries the text of one JSON object whose keys are exactly the
    fixed key names of the operation in their fixed order; its first two
    values are the echoed inputs (display forms of the terms, or the
    comma-joined [x,y,z] strings of the coordinates), every later value is a
    list of [{study_id, title}] rows, and the text lists the fields in that
    same order. *)
Theorem C9_response_field_order op w st resp :
  fst (handle op w st) = inr resp ->
  status resp = 200%Z ->
  exists fields : list (string * json),
    resp = Response (Json.dumps (JObj fields)) "application/json"
    /\ map fst fields = spec_keys op
    /\ (exists e1 e2, spec_echo op = Some (e1, e2)
                      /\ take 2 (map snd fields) = [JStr e1; JStr e2])
    /\ (forall v, v ∈ drop 2 (map snd fields) ->
          exists rows : list study, v = JArr (map dict (map study_row rows)))
    /\ Json.dumps (JObj fields)
       = "{" +:+ Json.join ", "
                   (map (fun kv => Json.quote (fst kv) +:+ ": " +:+ Json.dumps (snd kv)) fields)
         +:+ "}".
Proof.
  intros Hrun Hstatus.
  destruct (get_engine w st) as [[e|eng] st1] eqn:Heng.
  { destruct op; cbn [handle] in Hrun;
      [unfold functional_dissociation in Hrun | unfold intersect_terms in Hrun
       | unfold dissociate_coordinates in Hrun];
      rewrite (route_without_engine _ w st e st1 Heng) in Hrun; discriminate. }
  destruct op as [a b|a b|c1 c2]; cbn [handle] in Hrun.
  - rewrite (functional_dissociation_outcome w st st1 eng Heng) in Hrun.
    destruct (first_fault w (length (calls st)) 4); injection Hrun as <-; [discriminate|].
    exists (dissociation_fields (display a) (display b)
              (Sql.term_a_not_b (db w) (term_db a) (term_db b))
              (Sql.term_b_not_a (db w) (term_db a) (term_db b))).
    split; [reflexivity|]. split; [reflexivity|].
    split; [exists (display a), (display b); split; reflexivity|].
    split; [|reflexivity].
    intros v Hv. cbn in Hv. rewrite !elem_of_cons in Hv.
    destruct Hv as [->|[->|Hv]]; [eexists; reflexivity ..|inversion Hv].
  - rewrite (intersect_terms_outcome w st st1 eng Heng) in Hrun.
    destruct (first_fault w (length (calls st)) 3); injection Hrun as <-; [discriminate|].
    exists (intersection_fields (display a) (display b)
              (Sql.term_a_and_b (db w) (term_db a) (term_db b))).
    split; [reflexivity|]. split; [reflexivity|].
    split; [exists (display a), (display b); split; reflexivity|].
    split; [|reflexivity].
    intros v Hv. cbn in Hv. rewrite !elem_of_cons in Hv.
    destruct Hv as [->|Hv]; [eexists; reflexivity|inversion Hv].
  - destruct (parse c1) as [[[x1 y1] z1]|] eqn:H1.
    2:{ rewrite (dissociate_coordinates_malformed w st st1 eng Heng c1 c2) in Hrun
          by (now left).
        injection Hrun as <-. discriminate. }
    destruct (parse c2) as [[[x2 y2] z2]|] eqn:H2.
    2:{ rewrite (dissociate_coordinates_malformed w st st1 eng Heng c1 c2) in Hrun
          by (now right).
        injection Hrun as <-. discriminate. }
    rewrite (dissociate_coordinates_outcome w st st1 eng Heng c1 c2 _ _ _ _ _ _ H1 H2)
      in Hrun.
    destruct (first_fault w (length (calls st)) 4); injection Hrun as <-; [discriminate|].
    exists (locations_fields (coordinate_echo x1 y1 z1) (coordinate_echo x2 y2 z2)
              (Sql.coord_1_not_2 (db w) x1 y1 z1 x2 y2 z2)
              (Sql.coord_2_not_1 (db w) x1 y1 z1 x2 y2 z2)).
    split; [reflexivity|]. split; [reflexivity|].
    split.
    { exists (coordinate_echo x1 y1 z1), (coordinate_echo x2 y2 z2).
      cbn [spec_echo]. rewrite H1, H2. split; reflexivity. }
    split; [|reflexivity].
    intros v Hv. cbn in Hv. rewrite !elem_of_cons in Hv.
    destruct Hv as [->|[->|Hv]]; [eexists; reflexivity ..|inversion Hv].
Qed.

Lemma C9_response_field_order_witness :
  exists fields : list (string * json),
    Response (Json.dumps (locations_body "0,0,0" "10,-10,10" [("s1", "One")] [("s3", "Three")]))
             "application/json"
      = Response (Json.dumps (JObj fields)) "application/json"
    /\ map fst fields = spec_keys (DissociateLocations "0_0_0" "10_-10_10")
    /\ (exists e1 e2, spec_echo (DissociateLocations "0_0_0" "10_-10_10") = Some (e1, e2)
                      /\ take 2 (map snd fields) = [JStr e1; JStr e2])
    /\ (forall v, v ∈ drop 2 (map snd fields) ->
          exists rows : list study, v = JArr (map dict (map study_row rows)))
    /\ Json.dumps (JObj fields)
       = "{" +:+ Json.join ", "
                   (map (fun kv => Json.quote (fst kv) +:+ ": " +:+ Json.dumps (snd kv)) fields)
         +:+ "}".
Proof.
  apply (C9_response_field_order (DissociateLocations "0_0_0" "10_-10_10")
           Sample.healthy Sample.fresh).
  - vm_compute. reflexivity.
  - reflexivity.
Defined.

(** ** Underscores: the lookup and the comparisons query different terms *)

Section Underscores.

Local Ltac each_char c :=
  destruct c as [[] [] [] [] [] [] [] []]; vm_compute; try reflexivity; try discriminate.

Local Abbreviation us := ("_"%char).
Local Abbreviation sp := (" "%char).

Lemma lower_char_underscore c : Ascii.eqb (Py.lower_char c) us = Ascii.eqb c us.
Proof. each_char c. Qed.

Lemma isspace_not_underscore c : Py.isspace c = true -> Ascii.eqb c us = false.
Proof. each_char c. Qed.

Lemma lower_char_replace c :
  Py.lower_char (if Ascii.eqb c us then sp else c)
  = if Ascii.eqb (Py.lower_char c) us then sp else Py.lower_char c.
Proof. each_char c. Qed.

Lemma count_app s t c : count (s +:+ t) c = count s c + count t c.
Proof.
  induction s as [|d s IH]; [reflexivity|].
  rewrite append_String. cbn [count]. rewrite IH. lia.
Qed.

Lemma count_lower s : count (Py.lower s) us = count s us.
Proof.
  induction s as [|d s IH]; [reflexivity|].
  cbn [Py.lower count]. now rewrite lower_char_underscore, IH.
Qed.

Lemma count_lstrip s : count (Py.lstrip s) us = count s us.
Proof.
  induction s as [|d s IH]; [reflexivity|]. cbn [Py.lstrip].
  destruct (Py.isspace d) eqn:E; [|reflexivity].
  cbn [count]. now rewrite (isspace_not_underscore d E), IH.
Qed.

Lemma count_rstrip s : count (Py.rstrip s) us = count s us.
Proof.
  induction s as [|d s IH]; [reflexivity|]. cbn [Py.rstrip count].
  rewrite <- IH. destruct (Py.rstrip s) as [|e r].
  - destruct (Py.isspace d) eqn:E; [now rewrite (isspace_not_underscore d E)|].
    cbn [count]. lia.
  - reflexivity.
Qed.

Lemma count_strip s : count (Py.strip s) us = count s us.
Proof. unfold Py.strip. now rewrite count_rstrip, count_lstrip. Qed.

Lemma count_replace s : count (Py.replace s us sp) us = 0.
Proof.
  induction s as [|d s IH]; [reflexivity|]. cbn [Py.replace count]. rewrite IH.
  destruct (Ascii.eqb d us) eqn:E; [reflexivity | now rewrite E].
Qed.

Lemma replace_without s : count s us = 0 -> Py.replace s us sp = s.
Proof.
  induction s as [|d s IH]; [reflexivity|]. cbn [Py.replace count].
  destruct (Ascii.eqb d us); [discriminate|]. intros H. now rewrite IH.
Qed.

Lemma replace_app s t : Py.replace (s +:+ t) us sp = Py.replace s us sp +:+ Py.replace t us sp.
Proof.
  induction s as [|d s IH]; [reflexivity|].
  rewrite append_String. cbn [Py.replace]. now rewrite IH, append_String.
Qed.

Lemma lower_replace s : Py.lower (Py.replace s us sp) = Py.replace (Py.lower s) us sp.
Proof.
  induction s as [|d s IH]; [reflexivity|]. cbn [Py.replace Py.lower].
  now rewrite lower_char_replace, IH.
Qed.

Lemma lstrip_rstrip s : Py.lstrip (Py.rstrip s) = Py.rstrip (Py.lstrip s).
Proof.
  induction s as [|d s IH]; [reflexivity|].
  destruct (Py.isspace d) eqn:E.
  - cbn [Py.lstrip Py.rstrip]. rewrite E, <- IH.
    destruct (Py.rstrip s); cbn [Py.lstrip]; now rewrite ?E.
  - cbn [Py.lstrip]. rewrite E. apply headed_lstrip, rstrip_headed. exact E.
Qed.

Lemma lstrip_replace_lstrip s :
  Py.lstrip (Py.replace (Py.lstrip s) us sp) = Py.lstrip (Py.replace s us sp).
Proof.
  induction s as [|d s IH]; [reflexivity|]. cbn [Py.lstrip].
  destruct (Py.isspace d) eqn:E; [|reflexivity].
  rewrite IH. cbn [Py.replace Py.lstrip].
  now rewrite (isspace_not_underscore d E), E.
Qed.

Lemma rstrip_replace_rstrip s :
  Py.rstrip (Py.replace (Py.rstrip s) us sp) = Py.rstrip (Py.replace s us sp).
Proof.
  induction s as [|d s IH]; [reflexivity|]. cbn [Py.rstrip Py.replace].
  rewrite <- IH. destruct (Py.rstrip s) as [|e r] eqn:Er.
  - cbn [Py.replace Py.rstrip].
    destruct (Py.isspace d) eqn:E.
    + now rewrite (isspace_not_underscore d E), E.
    + cbn [Py.replace Py.rstrip]. reflexivity.
  - cbn [Py.replace Py.rstrip]. reflexivity.
Qed.

(** Trimming before the underscores are replaced changes nothing once the
    result is trimmed again. *)
Lemma strip_replace_strip s :
  Py.strip (Py.replace (Py.strip s) us sp) = Py.strip (Py.replace s us sp).
Proof.
  unfold Py.strip.
  rewrite <- (lstrip_rstrip (Py.replace (Py.rstrip (Py.lstrip s)) us sp)).
  rewrite rstrip_replace_rstrip, lstrip_rstrip, lstrip_replace_lstrip.
  reflexivity.
Qed.

Lemma append_inv_head p a b : p +:+ a = p +:+ b -> a = b.
Proof.
  induction p as [|c p IH]; [easy|]. rewrite !append_String. intros [= H]. auto.
Qed.

Lemma rstrip_app_blank s t : Py.rstrip t = EmptyString -> Py.rstrip (s +:+ t) = Py.rstrip s.
Proof.
  intros Ht. induction s as [|c s IH]; [exact Ht|].
  rewrite append_String. cbn [Py.rstrip]. now rewrite IH.
Qed.

Lemma length_append s t : String.length (s +:+ t) = String.length s + String.length t.
Proof.
  induction s as [|c s IH]; [reflexivity|]. rewrite append_String. cbn. now rewrite IH.
Qed.

(** What the comparisons query for [t]: the prefix, then the display form. *)
Lemma term_db_eq t : term_db t = prefix +:+ display t.
Proof.
  unfold term_db, normalize_term, display.
  rewrite lower_strip_fixed.
  destruct (Py.startswith _ prefix) eqn:E; [|reflexivity].
  apply startswith_inv in E as [r E].
  pose proof (count_replace t) as Hc.
  rewrite <- (count_strip (Py.replace t us sp)), <- count_lower, E, count_app in Hc.
  vm_compute in Hc. discriminate.
Qed.

(** The term the lookup queries differs from the term the comparisons query
    as soon as the path segment holds an underscore. *)
Lemma normalize_term_ne_term_db t : count t us <> 0 -> normalize_term t <> term_db t.
Proof.
  intros Hus Heq. rewrite term_db_eq in Heq.
  assert (Hd : count (display t) us = 0).
  { unfold display. now rewrite count_lower, count_strip, count_replace. }
  assert (Hfix : Py.rstrip (Py.lower (Py.strip t)) = Py.lower (Py.strip t)).
  { rewrite <- strip_lower. apply strip_rstrip_fixed. }
  assert (Hdisp : display t = Py.strip (Py.replace (Py.lower (Py.strip t)) us sp)).
  { unfold display.
    now rewrite <- strip_replace_strip, <- strip_lower, lower_replace. }
  unfold normalize_term in Heq.
  destruct (Py.startswith (Py.lower (Py.strip t)) prefix) eqn:E; cbn [negb] in Heq.
  - (* the trimmed, lower-cased segment already starts with the prefix *)
    rewrite Heq in Hfix, Hdisp.
    set (r := display t) in *.
    rewrite replace_app, (replace_without r Hd) in Hdisp.
    unfold Py.strip in Hdisp.
    change (Py.lstrip (Py.replace prefix us sp +:+ r))
      with (Py.replace prefix us sp +:+ r) in Hdisp.
    destruct (Py.rstrip r) as [|c r'] eqn:Er.
    + rewrite rstrip_app_blank in Hdisp by exact Er.
      rewrite Hdisp in Er. vm_compute in Er. discriminate.
    + rewrite rstrip_app in Hdisp by (rewrite Er; discriminate).
      rewrite rstrip_app in Hfix by (rewrite Er; discriminate).
      apply append_inv_head in Hfix. rewrite Hfix in Hdisp.
      apply (f_equal String.length) in Hdisp. rewrite length_append in Hdisp.
      vm_compute (String.length (Py.replace prefix us sp)) in Hdisp. lia.
  - apply append_inv_head in Heq.
    apply (f_equal (fun s => count s us)) in Heq.
    rewrite count_lower, count_strip, Hd in Heq. contradiction.
Qed.

End Underscores.

Lemma display_without_underscore t :
  count t "_" = 0 -> display t = Py.lower (Py.strip t).
Proof. intros H. unfold display. now rewrite replace_without. Qed.

Lemma term_db_without_underscore t :
  count t "_" = 0 -> term_db t = normalize_term t.
Proof.
  intros H. unfold term_db. rewrite (display_without_underscore t H).
  unfold normalize_term. now rewrite lower_strip_fixed.
Qed.

(** C10.  For a path term [t] that holds an underscore, the lookup sends the
    statement bound to [normalize_term t] (underscores kept) while the
    dissociation and the intersection send statements bound to the
    normalisation of [t] with its underscores replaced by spaces, and the two
    values differ; ["social_cognition"] is looked up as the prefixed
    ["social_cognition"] and compared as the prefixed ["social cognition"]. *)
Theorem C10_lookup_and_comparison_terms_differ w st st1 eng t other :
  get_engine w st = (inr eng, st1) ->
  count t "_" <> 0 ->
  calls (snd (get_studies_by_term t w st))
    = calls st ++ transaction_trace w (length (calls st))
                    [SelectStudiesByTerm (normalize_term t)]
  /\ calls (snd (functional_dissociation t other w st))
    = calls st ++ transaction_trace w (length (calls st))
                    [SelectTermANotB
                       (normalize_term (Py.lower (Py.strip (Py.replace t "_" " "))))
                       (term_db other);
                     SelectTermBNotA
                       (normalize_term (Py.lower (Py.strip (Py.replace t "_" " "))))
                       (term_db other)]
  /\ calls (snd (intersect_terms t other w st))
    = calls st ++ transaction_trace w (length (calls st))
                    [SelectTermAAndB
                       (normalize_term (Py.lower (Py.strip (Py.replace t "_" " "))))
                       (term_db other)]
  /\ normalize_term t
     <> normalize_term (Py.lower (Py.strip (Py.replace t "_" " ")))
  /\ normalize_term "social_cognition" = prefix +:+ "social_cognition"
  /\ normalize_term (Py.lower (Py.strip (Py.replace "social_cognition" "_" " ")))
     = prefix +:+ "social cognition".
Proof.
  intros Heng Hus. repeat split.
  - apply (get_studies_by_term_calls w st st1 eng Heng).
  - apply (functional_dissociation_calls w st st1 eng Heng).
  - apply (intersect_terms_calls w st st1 eng Heng).
  - apply (normalize_term_ne_term_db t Hus).
Qed.

Lemma C10_lookup_and_comparison_terms_differ_witness :
  calls (snd (get_studies_by_term "social_cognition" Sample.healthy Sample.fresh))
    = [Begin; Execute (SelectStudiesByTerm "terms_abstract_tfidf__social_cognition"); Commit]
  /\ calls (snd (functional_dissociation "social_cognition" "pain" Sample.healthy Sample.fresh))
    = [Begin;
       Execute (SelectTermANotB "terms_abstract_tfidf__social cognition"
                                "terms_abstract_tfidf__pain");
       Execute (SelectTermBNotA "terms_abstract_tfidf__social cognition"
                                "terms_abstract_tfidf__pain");
       Commit]
  /\ calls (snd (intersect_terms "social_cognition" "pain" Sample.healthy Sample.fresh))
    = [Begin;
       Execute (SelectTermAAndB "terms_abstract_tfidf__social cognition"
                                "terms_abstract_tfidf__pain");
       Commit]
  /\ normalize_term "social_cognition"
     <> normalize_term (Py.lower (Py.strip (Py.replace "social_cognition" "_" " ")))
  /\ normalize_term "social_cognition" = prefix +:+ "social_cognition"
  /\ normalize_term (Py.lower (Py.strip (Py.replace "social_cognition" "_" " ")))
     = prefix +:+ "social cognition".
Proof.
  apply (C10_lookup_and_comparison_terms_differ Sample.healthy Sample.fresh
           {| _engine := Some (Engine "postgresql://host/ns"); calls := [] |}
           (Engine "postgresql://host/ns") "social_cognition" "pain").
  - reflexivity.
  - vm_compute. lia.
Defined.

(** C2, as the specification states it, fails: for the path term ["a_b"]
    the dissociation binds the normalisation of the display form ["a b"],
    which is not the normalisation of the raw input. *)
Lemma C2_display_form_is_queried :
  statements (calls (snd (functional_dissociation "a_b" "c" Sample.healthy Sample.fresh)))
    = [SelectTermANotB "terms_abstract_tfidf__a b" "terms_abstract_tfidf__c";
       SelectTermBNotA "terms_abstract_tfidf__a b" "terms_abstract_tfidf__c"]
  /\ normalize_term "a_b" = "terms_abstract_tfidf__a_b"
  /\ statements (calls (snd (functional_dissociation "a_b" "c" Sample.healthy Sample.fresh)))
     <> [SelectTermANotB (normalize_term "a_b") (normalize_term "c");
         SelectTermBNotA (normalize_term "a_b") (normalize_term "c")].
Proof. vm_compute. repeat split. discriminate. Qed.

(** C2, amended.  The display form (underscores replaced by spaces, trimmed,
    lower-cased) is what the dissociation and the intersection echo and also
    what they normalise to obtain the queried term: they bind
    [normalize_term (display raw)], the lookup binds [normalize_term raw],
    and the two agree for every raw input without underscore. *)
Theorem C2_queried_terms w st st1 eng raw term_a term_b :
  get_engine w st = (inr eng, st1) ->
  calls (snd (get_studies_by_term raw w st))
    = calls st ++ transaction_trace w (length (calls st))
                    [SelectStudiesByTerm (normalize_term raw)]
  /\ calls (snd (functional_dissociation term_a term_b w st))
    = calls st ++ transaction_trace w (length (calls st))
                    [SelectTermANotB (normalize_term (display term_a))
                                     (normalize_term (display term_b));
                     SelectTermBNotA (normalize_term (display term_a))
                                     (normalize_term (display term_b))]
  /\ calls (snd (intersect_terms term_a term_b w st))
    = calls st ++ transaction_trace w (length (calls st))
                    [SelectTermAAndB (normalize_term (display term_a))
                                     (normalize_term (display term_b))]
  /\ (count raw "_" = 0 -> normalize_term (display raw) = normalize_term raw).
Proof.
  intros Heng. repeat split.
  - apply (get_studies_by_term_calls w st st1 eng Heng).
  - apply (functional_dissociation_calls w st st1 eng Heng).
  - apply (intersect_terms_calls w st st1 eng Heng).
  - apply term_db_without_underscore.
Qed.

Lemma C2_queried_terms_witness :
  calls (snd (get_studies_by_term " Pain" Sample.healthy Sample.fresh))
    = [Begin; Execute (SelectStudiesByTerm "terms_abstract_tfidf__pain"); Commit]
  /\ calls (snd (functional_dissociation "a_b" "C" Sample.healthy Sample.fresh))
    = [Begin;
       Execute (SelectTermANotB "terms_abstract_tfidf__a b" "terms_abstract_tfidf__c");
       Execute (SelectTermBNotA "terms_abstract_tfidf__a b" "terms_abstract_tfidf__c");
       Commit]
  /\ calls (snd (intersect_terms "a_b" "C" Sample.healthy Sample.fresh))
    = [Begin;
       Execute (SelectTermAAndB "terms_abstract_tfidf__a b" "terms_abstract_tfidf__c");
       Commit]
  /\ (count " Pain" "_" = 0 -> normalize_term (display " Pain") = normalize_term " Pain").
Proof.
  apply (C2_queried_terms Sample.healthy Sample.fresh
           {| _engine := Some (Engine "postgresql://host/ns"); calls := [] |}
           (Engine "postgresql://host/ns") " Pain" "a_b" "C").
  reflexivity.
Defined.

(** ** Malformed coordinates *)

(** The engine is requested before the tokens are parsed and outside any
    [try]: when it cannot be obtained the route raises, also for malformed
    tokens. *)
Lemma dissociate_coordinates_without_engine w st st1 e coord1 coord2 :
  get_engine w st = (inl e, st1) ->
  fst (dissociate_coordinates coord1 coord2 w st) = inl e.
Proof.
  intros H. unfold dissociate_coordinates. exact (route_without_engine _ w st e st1 H).
Qed.

(** C8.  When either coordinate token is malformed (for instance
    [abc_0_0]), the coordinate dissociation answers 400 with an error body
    and makes no call to the store: no transaction is begun and neither
    anti-join statement is executed. *)
Theorem C8_malformed_coordinates_no_store_access w st st1 eng coord1 coord2 :
  get_engine w st = (inr eng, st1) ->
  parse coord1 = None \/ parse coord2 = None ->
  fst (dissociate_coordinates coord1 coord2 w st)
    = inr (with_status
             (jsonify (JObj [("error",
                              JStr "Coordinates must be in x_y_z format and integers.")]))
             400)
  /\ calls (snd (dissociate_coordinates coord1 coord2 w st)) = calls st
  /\ parse "abc_0_0" = None.
Proof.
  intros Heng Hbad.
  rewrite (dissociate_coordinates_malformed w st st1 eng Heng coord1 coord2 Hbad).
  repeat split. apply (get_engine_calls w st st1 eng Heng).
Qed.

Lemma C8_malformed_coordinates_no_store_access_witness :
  fst (dissociate_coordinates "abc_0_0" "0_0_0" Sample.healthy Sample.fresh)
    = inr (with_status
             (jsonify (JObj [("error",
                              JStr "Coordinates must be in x_y_z format and integers.")]))
             400)
  /\ calls (snd (dissociate_coordinates "abc_0_0" "0_0_0" Sample.healthy Sample.fresh)) = []
  /\ parse "abc_0_0" = None.
Proof.
  apply (C8_malformed_coordinates_no_store_access Sample.healthy Sample.fresh
           {| _engine := Some (Engine "postgresql://host/ns"); calls := [] |}
           (Engine "postgresql://host/ns") "abc_0_0" "0_0_0").
  - reflexivity.
  - left. reflexivity.
Defined.

(** ** Store failures *)

(** The four routes that wrap their statements in [try ... except Exception]
    answer a store failure with 500 and the body [{"error": message}], where
    the message is that of the first failing call; without a failure they
    answer with the complete result. *)
Lemma guarded_routes_report_first_failure w st st1 eng msg term term_a term_b :
  get_engine w st = (inr eng, st1) ->
  (first_fault w (length (calls st)) 3 = Some msg ->
     fst (get_studies_by_term term w st) = inr (error_response (SQLAlchemyError msg))
     /\ fst (intersect_terms term_a term_b w st) = inr (error_response (SQLAlchemyError msg)))
  /\ (first_fault w (length (calls st)) 4 = Some msg ->
     fst (functional_dissociation term_a term_b w st)
       = inr (error_response (SQLAlchemyError msg))).
Proof.
  intros Heng. split.
  - intros H.
    rewrite (get_studies_by_term_outcome w st st1 eng Heng),
            (intersect_terms_outcome w st st1 eng Heng), H. now split.
  - intros H. now rewrite (functional_dissociation_outcome w st st1 eng Heng), H.
Qed.

(** [/terms_sample] has no [try]: a store failure leaves the handler as an
    exception, whatever call fails. *)
Lemma get_terms_sample_failure w st st1 eng msg :
  get_engine w st = (inr eng, st1) ->
  first_fault w (length (calls st)) 3 = Some msg ->
  fst (get_terms_sample w st) = inl (SQLAlchemyError msg).
Proof. intros Heng H. now rewrite (get_terms_sample_outcome w st st1 eng Heng), H. Qed.

(** C5 at the failing input.  When the statement of [/terms_sample] fails in
    the store, the handler returns no response at all: it raises the store's
    exception.  On the same failure the lookup route answers 500 with
    [{"error": message}]. *)
Theorem C5_terms_sample_store_failure_unhandled :
  fst (get_terms_sample (Sample.failing 1 "connection lost") Sample.fresh)
    = inl (SQLAlchemyError "connection lost")
  /\ fst (get_studies_by_term "pain" (Sample.failing 1 "connection lost") Sample.fresh)
    = inr {| status := 500; mimetype := "application/json";
             payload := Jsonify (JObj [("error", JStr "connection lost")]) |}.
Proof. split; reflexivity. Qed.

(** ** The coordinate parser against the specification's format *)

Section IntFacts.

Local Ltac each_char c :=
  destruct c as [[] [] [] [] [] [] [] []]; try reflexivity; try discriminate.

Lemma int_unfold s :
  Py.int s =
    match Py.skip_space s with
    | EmptyString => None
    | String c r =>
        if Ascii.eqb c "-" then unsigned (-1) r
        else if Ascii.eqb c "+" then unsigned 1 r
        else unsigned 1 (String c r)
    end.
Proof.
  unfold Py.int. destruct (Py.skip_space s) as [|c r]; [reflexivity|].
  each_char c.
Qed.

Lemma digit_is_digit c :
  Py.digit c = if is_digit c then Some (Z.of_N (N_of_ascii c) - 48)%Z else None.
Proof. reflexivity. Qed.

Lemma is_digit_not_space c : is_digit c = true -> Py.int_space c = false.
Proof. each_char c. Qed.

Lemma is_digit_not_sign c :
  is_digit c = true -> Ascii.eqb c "-" = false /\ Ascii.eqb c "+" = false.
Proof. each_char c; intros _; split; reflexivity. Qed.

Lemma skip_space_split s :
  exists lead, s = lead +:+ Py.skip_space s /\ Py.all_space lead = true.
Proof.
  induction s as [|c s (lead & IH & Hl)]; [now exists EmptyString|].
  cbn [Py.skip_space]. destruct (Py.int_space c) eqn:E.
  - exists (String c lead). rewrite append_String, <- IH. cbn [Py.all_space].
    now rewrite E, Hl.
  - now exists EmptyString.
Qed.

Lemma skip_space_app lead s :
  Py.all_space lead = true -> Py.skip_space (lead +:+ s) = Py.skip_space s.
Proof.
  induction lead as [|c lead IH]; [reflexivity|]. cbn [Py.all_space].
  intros [Hc Hl]%andb_true_iff. rewrite append_String. cbn [Py.skip_space].
  rewrite Hc. auto.
Qed.

Lemma digits_sound r : forall acc v,
  Py.digits acc r = Some v ->
  exists ds trail, r = ds +:+ trail /\ all_digits ds = true
                   /\ Py.all_space trail = true /\ v = decimal acc ds.
Proof.
  induction r as [|c r IH]; intros acc v H.
  - injection H as <-. now exists EmptyString, EmptyString.
  - cbn [Py.digits] in H. rewrite digit_is_digit in H.
    destruct (is_digit c) eqn:Ec.
    + destruct (IH _ _ H) as (ds & trail & -> & Hd & Ht & ->).
      exists (String c ds), trail. rewrite append_String. cbn [all_digits decimal].
      now rewrite Ec, Hd.
    + destruct (Py.all_space (String c r)) eqn:Es; [|discriminate].
      injection H as <-. now exists EmptyString, (String c r).
Qed.

Lemma digits_complete ds trail : forall acc,
  all_digits ds = true -> Py.all_space trail = true ->
  Py.digits acc (ds +:+ trail) = Some (decimal acc ds).
Proof.
  induction ds as [|c ds IH]; intros acc Hd Ht.
  - change (EmptyString +:+ trail) with trail. destruct trail as [|c t]; [reflexivity|].
    cbn [Py.digits decimal]. rewrite digit_is_digit, Ht.
    destruct (is_digit c) eqn:Ec; [|reflexivity].
    apply is_digit_not_space in Ec. cbn [Py.all_space] in Ht. now rewrite Ec in Ht.
  - cbn [all_digits] in Hd. apply andb_true_iff in Hd as [Hc Hd].
    rewrite append_String. cbn [Py.digits decimal]. rewrite digit_is_digit, Hc. auto.
Qed.

Lemma leading_digits_app ds trail :
  all_digits ds = true -> Py.all_space trail = true ->
  Py.leading_digits (ds +:+ trail) = String.length ds.
Proof.
  intros Hd Ht. induction ds as [|c ds IH].
  - change (EmptyString +:+ trail) with trail. destruct trail as [|c t]; [reflexivity|].
    cbn [Py.all_space] in Ht. apply andb_true_iff in Ht as [Hc _].
    cbn [Py.leading_digits String.length]. rewrite digit_is_digit.
    destruct (is_digit c) eqn:Ec; [|reflexivity].
    apply is_digit_not_space in Ec. congruence.
  - cbn [all_digits] in Hd. apply andb_true_iff in Hd as [Hc Hd].
    rewrite append_String. cbn [Py.leading_digits String.length].
    rewrite digit_is_digit, Hc. f_equal. auto.
Qed.

Lemma unsigned_sound sign r v :
  unsigned sign r = Some v ->
  exists ds trail, r = ds +:+ trail /\ all_digits ds = true /\ ds <> EmptyString
                   /\ Py.all_space trail = true
                   /\ (N.of_nat (String.length ds) <= Py.max_str_digits)%N
                   /\ v = (sign * decimal 0 ds)%Z.
Proof.
  destruct r as [|c r]; [discriminate|]. unfold unsigned.
  rewrite digit_is_digit. destruct (is_digit c) eqn:Ec; [|discriminate].
  destruct (N.of_nat (Py.leading_digits (String c r)) <=? Py.max_str_digits)%N eqn:Hlim;
    [|discriminate].
  destruct (Py.digits 0 (String c r)) as [u|] eqn:Hu; [|discriminate].
  intros [= <-]. destruct (digits_sound _ _ _ Hu) as (ds & trail & E & Hd & Ht & ->).
  exists ds, trail. rewrite E, (leading_digits_app _ _ Hd Ht) in Hlim.
  apply N.leb_le in Hlim.
  split; [exact E|]. split; [exact Hd|]. split; [|now repeat split].
  intros ->. change (EmptyString +:+ trail) with trail in E. subst trail.
  cbn [Py.all_space] in Ht. now rewrite (is_digit_not_space c Ec) in Ht.
Qed.

Lemma unsigned_complete sign ds trail :
  all_digits ds = true -> ds <> EmptyString -> Py.all_space trail = true ->
  (N.of_nat (String.length ds) <= Py.max_str_digits)%N ->
  unsigned sign (ds +:+ trail) = Some (sign * decimal 0 ds)%Z.
Proof.
  intros Hd Hne Ht Hlim. apply N.leb_le in Hlim.
  rewrite <- (leading_digits_app _ _ Hd Ht) in Hlim.
  destruct ds as [|c ds]; [contradiction|].
  unfold unsigned. rewrite Hlim, (digits_complete _ _ 0%Z Hd Ht).
  rewrite append_String, digit_is_digit.
  cbn [all_digits] in Hd. apply andb_true_iff in Hd as [-> _]. reflexivity.
Qed.

(** [int] accepts exactly the integers of at most [Py.max_str_digits] digits,
    with their value. *)
Lemma int_bounded_integer s n : Py.int s = Some n <-> bounded_integer s n.
Proof.
  rewrite int_unfold. split.
  - destruct (skip_space_split s) as (lead & Hs & Hl).
    destruct (Py.skip_space s) as [|c r]; [discriminate|].
    destruct (Ascii.eqb c "-") eqn:Em; [|destruct (Ascii.eqb c "+") eqn:Ep].
    + apply Ascii.eqb_eq in Em. subst c. intros H.
      destruct (unsigned_sound _ _ _ H) as (ds & trail & -> & Hd & Hne & Ht & Hlim & ->).
      exists lead, "-", ds, trail. do 6 (split; [assumption|]).
      right. split; [reflexivity | lia].
    + apply Ascii.eqb_eq in Ep. subst c. intros H.
      destruct (unsigned_sound _ _ _ H) as (ds & trail & -> & Hd & Hne & Ht & Hlim & ->).
      exists lead, "+", ds, trail. do 6 (split; [assumption|]).
      left. split; [now right | lia].
    + intros H.
      destruct (unsigned_sound _ _ _ H) as (ds & trail & E & Hd & Hne & Ht & Hlim & ->).
      exists lead, EmptyString, ds, trail. rewrite <- E. do 6 (split; [assumption|]).
      left. split; [now left | lia].
  - intros (lead & sign & ds & trail & -> & Hl & Ht & Hd & Hne & Hlim & Hsign).
    rewrite (skip_space_app lead _ Hl).
    pose proof (unsigned_complete 1 _ _ Hd Hne Ht Hlim) as Hpos.
    pose proof (unsigned_complete (-1) _ _ Hd Hne Ht Hlim) as Hneg.
    clear Hlim. destruct ds as [|c ds]; [contradiction|].
    pose proof Hd as Hc. cbn [all_digits] in Hc. apply andb_true_iff in Hc as [Hc _].
    destruct (is_digit_not_sign c Hc) as [Hm Hp].
    destruct Hsign as [[[-> | ->] ->] | [-> ->]].
    + change (EmptyString +:+ String c ds +:+ trail) with (String c ds +:+ trail).
      rewrite append_String. cbn [Py.skip_space].
      rewrite (is_digit_not_space c Hc), Hm, Hp, <- append_String.
      rewrite Hpos. f_equal; lia.
    + change (Py.skip_space ("+" +:+ String c ds +:+ trail))
        with (String "+"%char (String c ds +:+ trail)).
      cbn [Ascii.eqb Bool.eqb]. rewrite Hpos. f_equal; lia.
    + change (Py.skip_space ("-" +:+ String c ds +:+ trail))
        with (String "-"%char (String c ds +:+ trail)).
      cbn [Ascii.eqb Bool.eqb]. rewrite Hneg. f_equal; lia.
Qed.

(** An integer within the digit limit is an integer of the specification. *)
Lemma bounded_integer_spec_integer s n : bounded_integer s n -> spec_integer s n.
Proof.
  intros (lead & sign & ds & trail & E & Hl & Ht & Hd & Hne & _ & Hsign).
  now exists lead, sign, ds, trail.
Qed.

End IntFacts.

Section SplitFacts.

Variable sep : ascii.

Lemma split_inv s : forall a rest,
  Py.split s sep = a :: rest ->
  count a sep = 0
  /\ (rest = [] /\ s = a
      \/ exists t, s = a +:+ String sep t /\ Py.split t sep = rest).
Proof.
  induction s as [|c s IH]; intros a rest H; cbn [Py.split] in H.
  - injection H as <- <-. split; [reflexivity | now left].
  - destruct (Ascii.eqb c sep) eqn:E.
    + injection H as <- <-. apply Ascii.eqb_eq in E. subst c.
      split; [reflexivity|]. right. now exists s.
    + destruct (Py.split s sep) as [|w ws] eqn:Hs.
      * injection H as <- <-. cbn [count]. rewrite E.
        split; [reflexivity|]. left. split; [reflexivity|].
        destruct s; cbn [Py.split] in Hs; [discriminate|].
        destruct (Ascii.eqb _ sep); [discriminate|]. now destruct (Py.split s sep).
      * injection H as <- <-. destruct (IH w ws eq_refl) as [Hw Hcase].
        cbn [count]. rewrite E. split; [exact Hw|].
        destruct Hcase as [[-> ->] | (t & -> & Ht)]; [now left|].
        right. exists t. now rewrite append_String.
Qed.

Lemma split_single a : count a sep = 0 -> Py.split a sep = [a].
Proof.
  induction a as [|c a IH]; [reflexivity|]. cbn [count Py.split].
  destruct (Ascii.eqb c sep); [discriminate|]. intros H. now rewrite IH.
Qed.

Lemma split_cut a t :
  count a sep = 0 -> Py.split (a +:+ String sep t) sep = a :: Py.split t sep.
Proof.
  induction a as [|c a IH].
  - intros _. change (EmptyString +:+ String sep t) with (String sep t).
    cbn [Py.split]. now rewrite Ascii.eqb_refl.
  - cbn [count]. rewrite append_String. cbn [Py.split].
    destruct (Ascii.eqb c sep); [discriminate|]. intros H. now rewrite IH.
Qed.

Lemma split_three s a b c :
  Py.split s sep = [a; b; c] <->
  s = a +:+ String sep (b +:+ String sep c)
  /\ count a sep = 0 /\ count b sep = 0 /\ count c sep = 0.
Proof.
  split.
  - intros H.
    apply split_inv in H as [Ha [[[=] _] | (t & -> & H)]].
    apply split_inv in H as [Hb [[[=] _] | (u & -> & H)]].
    apply split_inv in H as [Hc [[_ ->] | (v & -> & H)]].
    + now repeat split.
    + destruct v; cbn [Py.split] in H; [discriminate|].
      destruct (Ascii.eqb _ sep); [discriminate|]. now destruct (Py.split v sep).
  - intros (-> & Ha & Hb & Hc).
    now rewrite (split_cut a _ Ha), (split_cut b _ Hb), (split_single c Hc).
Qed.

End SplitFacts.

Section ParseFacts.

Local Ltac each_char c :=
  destruct c as [[] [] [] [] [] [] [] []]; try reflexivity; try discriminate.

Lemma int_space_not_underscore c : Py.int_space c = true -> Ascii.eqb c "_" = false.
Proof. each_char c. Qed.

Lemma is_digit_not_underscore c : is_digit c = true -> Ascii.eqb c "_" = false.
Proof. each_char c. Qed.

Lemma all_space_count s : Py.all_space s = true -> count s "_" = 0.
Proof.
  induction s as [|c s IH]; [reflexivity|]. cbn [Py.all_space count].
  intros [Hc Hs]%andb_true_iff. now rewrite (int_space_not_underscore c Hc), IH.
Qed.

Lemma all_digits_count s : all_digits s = true -> count s "_" = 0.
Proof.
  induction s as [|c s IH]; [reflexivity|]. cbn [all_digits count].
  intros [Hc Hs]%andb_true_iff. now rewrite (is_digit_not_underscore c Hc), IH.
Qed.

Lemma spec_integer_count s n : spec_integer s n -> count s "_" = 0.
Proof.
  intros (lead & sign & ds & trail & -> & Hl & Ht & Hd & _ & Hsign).
  rewrite !count_app, (all_space_count _ Hl), (all_space_count _ Ht), (all_digits_count _ Hd).
  destruct Hsign as [[[-> | ->] _] | [-> _]]; reflexivity.
Qed.

Lemma parse_some tok x y z :
  parse tok = Some (x, y, z) <->
  exists a b c, Py.split tok "_" = [a; b; c]
                /\ Py.int a = Some x /\ Py.int b = Some y /\ Py.int c = Some z.
Proof.
  unfold parse. split.
  - destruct (Py.split tok "_") as [|a [|b [|c [|d l]]]]; cbn [map Py.unpack3];
      repeat match goal with
        | |- context [Py.int ?s] => destruct (Py.int s) eqn:?
        end; try discriminate.
    intros [= -> -> ->]. now exists a, b, c.
  - intros (a & b & c & -> & Ha & Hb & Hc). cbn [map]. now rewrite Ha, Hb, Hc.
Qed.

End ParseFacts.

Lemma bounded_coordinate_spec_coordinate token x y z :
  bounded_coordinate token x y z -> spec_coordinate token x y z.
Proof.
  intros (a & b & c & E & Ha & Hb & Hc). exists a, b, c.
  auto using bounded_integer_spec_integer.
Qed.

Lemma parse_bounded_coordinate token x y z :
  parse token = Some (x, y, z) <-> bounded_coordinate token x y z.
Proof.
  rewrite parse_some. unfold bounded_coordinate. split.
  - intros (a & b & c & Hs & Ha & Hb & Hc).
    apply split_three in Hs as (-> & _). exists a, b, c.
    rewrite <- !int_bounded_integer. now repeat split.
  - intros (a & b & c & -> & Ha & Hb & Hc). exists a, b, c.
    rewrite !int_bounded_integer. repeat split; try assumption.
    apply split_three.
    repeat split; eauto using spec_integer_count, bounded_integer_spec_integer.
Qed.

(** Whatever parses has the specification's format. *)
Lemma parse_spec_coordinate token x y z :
  parse token = Some (x, y, z) -> spec_coordinate token x y z.
Proof.
  intros H. now apply bounded_coordinate_spec_coordinate, parse_bounded_coordinate.
Qed.

(** C4, counterexample.  The token ["1_2_"] followed by 4301 nines splits on
    the delimiter into three components, each a valid integer, so it has the
    claim's format; [int] raises [ValueError] on the third component, which
    is over the interpreter's digit limit, and the route answers 400. *)
Lemma C4_long_numeral_is_rejected :
  (exists x y z, spec_coordinate ("1_2_" +:+ repeat_string "9" 4301) x y z)
  /\ parse ("1_2_" +:+ repeat_string "9" 4301) = None
  /\ fst (dissociate_coordinates ("1_2_" +:+ repeat_string "9" 4301) "0_0_0"
            Sample.healthy Sample.fresh)
     = inr bad_coordinates
  /\ status bad_coordinates = 400%Z.
Proof.
  assert (Hparse : parse ("1_2_" +:+ repeat_string "9" 4301) = None)
    by (vm_compute; reflexivity).
  split; [|split; [exact Hparse|split; [|reflexivity]]].
  - exists 1%Z, 2%Z, (decimal 0 (repeat_string "9" 4301)).
    exists "1", "2", (repeat_string "9" 4301). split; [reflexivity|].
    split; [|split].
    + exists EmptyString, EmptyString, "1", EmptyString.
      repeat split; try discriminate. now left; split; [left|].
    + exists EmptyString, EmptyString, "2", EmptyString.
      repeat split; try discriminate. now left; split; [left|].
    + exists EmptyString, EmptyString, (repeat_string "9" 4301), EmptyString.
      split; [vm_compute; reflexivity|]. split; [reflexivity|]. split; [reflexivity|].
      split; [vm_compute; reflexivity|].
      split; [intros H; apply (f_equal String.length) in H; vm_compute in H; discriminate|].
      left. split; [now left | reflexivity].
  - rewrite (dissociate_coordinates_malformed Sample.healthy Sample.fresh
               {| _engine := Some (Engine "postgresql://host/ns"); calls := [] |}
               (Engine "postgresql://host/ns") eq_refl _ "0_0_0" (or_introl Hparse)).
    reflexivity.
Qed.

(** C4, amended.  [parse] yields [(x, y, z)] exactly when the token is three
    integers separated by the delimiter, each with optional sign and
    surrounding blanks and with at most 4300 digits, leading zeros counted,
    and yields nothing otherwise; [parse "1_-2_3"] is [(1, -2, 3)], ["1_2"]
    and ["a_b_c"] are rejected; and a rejected token makes the route answer
    400 with an error body, a response of the 4xx class and not an
    exception. *)
Theorem C4_coordinate_parsing :
  (forall token x y z, parse token = Some (x, y, z) <-> bounded_coordinate token x y z)
  /\ (forall token, parse token = None <-> ~ exists x y z, bounded_coordinate token x y z)
  /\ parse "1_-2_3" = Some (1, -2, 3)%Z
  /\ parse "1_2" = None
  /\ parse "a_b_c" = None
  /\ (forall w st st1 eng coord1 coord2,
        get_engine w st = (inr eng, st1) ->
        parse coord1 = None \/ parse coord2 = None ->
        exists resp, fst (dissociate_coordinates coord1 coord2 w st) = inr resp
                     /\ status resp = 400%Z
                     /\ exists message, payload resp = Jsonify (JObj [("error", JStr message)])).
Proof.
  split; [exact parse_bounded_coordinate|].
  split.
  { intros token. split.
    - intros H (x & y & z & Hxyz). apply parse_bounded_coordinate in Hxyz. congruence.
    - intros H. destruct (parse token) as [[[x y] z]|] eqn:E; [|reflexivity].
      exfalso. apply H. exists x, y, z. now apply parse_bounded_coordinate. }
  repeat (split; [reflexivity|]).
  intros w st st1 eng coord1 coord2 Heng Hbad.
  rewrite (dissociate_coordinates_malformed w st st1 eng Heng coord1 coord2 Hbad).
  exists bad_coordinates. repeat split. eexists. reflexivity.
Qed.

Lemma C4_coordinate_parsing_witness :
  exists resp, fst (dissociate_coordinates "1_2" "a_b_c" Sample.healthy Sample.fresh) = inr resp
               /\ status resp = 400%Z
               /\ exists message, payload resp = Jsonify (JObj [("error", JStr message)]).
Proof.
  apply (proj2 (proj2 (proj2 (proj2 (proj2 C4_coordinate_parsing))))
           Sample.healthy Sample.fresh
           {| _engine := Some (Engine "postgresql://host/ns"); calls := [] |}
           (Engine "postgresql://host/ns") "1_2" "a_b_c").
  - reflexivity.
  - left. reflexivity.
Defined.

(** * Further properties of the code *)

(** ** The engine singleton (app.py, lines 8-24) *)

Lemma slice_from_app p r : Py.slice_from (String.length p) (p +:+ r) = r.
Proof. induction p as [|c p IH]; [reflexivity|]. rewrite append_String. exact IH. Qed.

(** X1.  Once [get_engine] has returned an engine, every later call returns
    that same engine and changes nothing, whatever the environment has
    become: the engine is created at most once per process. *)
Theorem X1_get_engine_is_cached w w' st st1 eng :
  get_engine w st = (inr eng, st1) ->
  get_engine w' st1 = (inr eng, st1).
Proof.
  unfold get_engine. destruct (_engine st) as [cached|] eqn:Hc.
  - intros [= <- <-]. now rewrite Hc.
  - destruct (DB_URL w) as [[|c u]|]; try discriminate.
    match goal with |- context [create_engine_error w ?u] =>
      destruct (create_engine_error w u) end; [discriminate|].
    intros [= <- <-]. reflexivity.
Qed.

Lemma X1_get_engine_is_cached_witness :
  get_engine {| DB_URL := None; create_engine_error := fun _ => Some "unreachable";
                db := Sample.corpus; fault := fun _ => Some "down" |}
             {| _engine := Some (Engine "postgresql://host/ns"); calls := [] |}
  = (inr (Engine "postgresql://host/ns"),
     {| _engine := Some (Engine "postgresql://host/ns"); calls := [] |}).
Proof.
  apply (X1_get_engine_is_cached Sample.healthy _ Sample.fresh). reflexivity.
Defined.

(** X2.  An engine created from the environment never has a URL of the old
    scheme [postgres://]: such a [DB_URL] is rewritten to [postgresql://]
    with the rest of the URL kept, and any other [DB_URL] is used as it
    is. *)
Theorem X2_get_engine_rewrites_old_scheme w st url st1 :
  _engine st = None ->
  get_engine w st = (inr (Engine url), st1) ->
  Py.startswith url "postgres://" = false
  /\ exists db_url, DB_URL w = Some db_url
       /\ ((exists rest, db_url = "postgres://" +:+ rest /\ url = "postgresql://" +:+ rest)
           \/ (Py.startswith db_url "postgres://" = false /\ url = db_url)).
Proof.
  intros Hc. unfold get_engine. rewrite Hc.
  destruct (DB_URL w) as [[|c u]|]; try discriminate.
  set (db_url := String c u).
  destruct (Py.startswith db_url "postgres://") eqn:Hs.
  - destruct (startswith_inv _ _ Hs) as [rest Hrest]. rewrite Hrest, slice_from_app.
    destruct (create_engine_error w _); [discriminate|]. intros [= <- <-].
    split; [reflexivity|]. exists ("postgres://" +:+ rest). split; [reflexivity|].
    left. now exists rest.
  - destruct (create_engine_error w _); [discriminate|]. intros [= <- <-].
    split; [exact Hs|]. exists db_url. split; [reflexivity|]. now right.
Qed.

Lemma X2_get_engine_rewrites_old_scheme_witness :
  Py.startswith "postgresql://host/ns" "postgres://" = false
  /\ exists db_url, DB_URL Sample.healthy = Some db_url
       /\ ((exists rest, db_url = "postgres://" +:+ rest
                         /\ "postgresql://host/ns" = "postgresql://" +:+ rest)
           \/ (Py.startswith db_url "postgres://" = false
               /\ "postgresql://host/ns" = db_url)).
Proof.
  apply (X2_get_engine_rewrites_old_scheme Sample.healthy Sample.fresh
           "postgresql://host/ns"
           {| _engine := Some (Engine "postgresql://host/ns"); calls := [] |}).
  - reflexivity.
  - reflexivity.
Defined.

(** X3.  [get_engine] never calls the store; when it raises it leaves the
    process state untouched, so the next request tries again, and when it
    returns an engine, that engine is the cached one. *)
Theorem X3_get_engine_effects w st :
  calls (snd (get_engine w st)) = calls st
  /\ match fst (get_engine w st) with
     | inl _ => snd (get_engine w st) = st
     | inr eng => _engine (snd (get_engine w st)) = Some eng
     end.
Proof.
  unfold get_engine. destruct (_engine st) as [cached|] eqn:Hc; [now split|].
  destruct (DB_URL w) as [[|c u]|]; try now split.
  match goal with |- context [create_engine_error w ?u] =>
    destruct (create_engine_error w u) end; now split.
Qed.

(** X4.  With no engine yet and [DB_URL] unset or empty, every route raises
    the [RuntimeError] of [get_engine] instead of answering (the call sits
    outside the routes' [try] blocks), and no call reaches the store. *)
Theorem X4_unconfigured_routes_raise w st r :
  _engine st = None ->
  DB_URL w = None \/ DB_URL w = Some EmptyString ->
  serve r w st = (inl (RuntimeError "Missing DB_URL environment variable."), st).
Proof.
  intros Hc Hurl.
  assert (Hget : get_engine w st
                 = (inl (RuntimeError "Missing DB_URL environment variable."), st)).
  { unfold get_engine. rewrite Hc. now destruct Hurl as [-> | ->]. }
  destruct r as [|term|[a b|a b|c1 c2]]; cbn [serve handle];
    [unfold get_terms_sample | unfold get_studies_by_term
     | unfold functional_dissociation | unfold intersect_terms
     | unfold dissociate_coordinates];
    unfold mbind, M_bind, bind; now rewrite Hget.
Qed.

Lemma X4_unconfigured_routes_raise_witness :
  serve (Comparison (DissociateLocations "abc" "0_0_0"))
        {| DB_URL := Some EmptyString; create_engine_error := fun _ => None;
           db := Sample.corpus; fault := fun _ => None |}
        Sample.fresh
  = (inl (RuntimeError "Missing DB_URL environment variable."), Sample.fresh).
Proof.
  apply X4_unconfigured_routes_raise.
  - reflexivity.
  - right. reflexivity.
Defined.

(** ** The statements as set operations on the corpus *)

Lemma limit_all {A} (n : N) (rows : list A) :
  (N.of_nat (length rows) <= n)%N -> Sql.limit n rows = rows.
Proof.
  revert n. induction rows as [|r rows IH]; intros n H; cbn [Sql.limit]; [reflexivity|].
  cbn [length] in H. destruct (N.eqb_spec n 0); [lia|].
  rewrite IH; [reflexivity | lia].
Qed.

(** Distinct rows drawn from the metadata are no more than the metadata. *)
Lemma from_metadata_length d (rows : list study) :
  NoDup rows -> (forall r, r ∈ rows -> from_metadata d r) ->
  length rows <= length (metadata d).
Proof.
  intros Hnd Hfrom.
  rewrite <- (length_map (fun m => (m_study_id m, m_title m)) (metadata d)).
  apply submseteq_length, NoDup_submseteq; [exact Hnd|].
  intros r Hr. destruct (Hfrom r Hr) as (m & Hm & ->).
  apply list_elem_of_In, (in_map (fun m => (m_study_id m, m_title m))).
  apply list_elem_of_In, Hm.
Qed.

(** Below its cap, a statement returns every distinct row. *)
Lemma limit_distinct_all d (n : N) (rows : list study) :
  (N.of_nat (length (metadata d)) <= n)%N ->
  (forall r, r ∈ rows -> from_metadata d r) ->
  forall r, r ∈ Sql.limit n (Sql.distinct rows) <-> r ∈ rows.
Proof.
  intros Hcap Hfrom r. rewrite limit_all; [apply elem_of_remove_dups|].
  assert (length (Sql.distinct rows) <= length (metadata d)); [|lia].
  apply from_metadata_length; [apply NoDup_remove_dups|].
  intros x Hx. apply Hfrom. exact (proj1 (elem_of_remove_dups _ _) Hx).
Qed.

Lemma in_metadata d study_id title :
  from_metadata d (study_id, title) <->
  exists m, m ∈ metadata d /\ m_study_id m = study_id /\ m_title m = title.
Proof.
  unfold from_metadata. split.
  - intros (m & Hm & [= -> ->]). now exists m.
  - intros (m & Hm & <- & <-). now exists m.
Qed.

Local Ltac close_row :=
  repeat (apply list_elem_of_bind; eexists; split; [|eassumption]);
  match goal with
  | |- _ ∈ (if ?c then _ else _) =>
      assert (Hcond : c = true);
      [ rewrite ?andb_true_iff, ?negb_true_iff, ?String.eqb_eq; repeat split;
        try congruence; try assumption
      | rewrite Hcond; apply list_elem_of_singleton; try reflexivity ]
  end.

Lemma term_a_not_b_complete d term_a term_b a m :
  a ∈ annotations_terms d -> m ∈ metadata d ->
  a_study_id a = m_study_id m -> a_term a = term_a ->
  Sql.has_term d (a_study_id a) term_b = false ->
  (m_study_id m, m_title m) ∈
    (a ← annotations_terms d;
     m ← metadata d;
     if (a_study_id a =? m_study_id m)%string && (a_term a =? term_a)%string
        && negb (Sql.has_term d (a_study_id a) term_b)
     then [(m_study_id m, m_title m)] else []).
Proof. intros Ha Hm Hid Ht Hn. close_row. Qed.

Lemma term_a_and_b_complete d term_a term_b a b m :
  a ∈ annotations_terms d -> b ∈ annotations_terms d -> m ∈ metadata d ->
  a_study_id a = a_study_id b -> a_study_id a = m_study_id m ->
  a_term a = term_a -> a_term b = term_b ->
  (m_study_id m, m_title m) ∈
    (a ← annotations_terms d;
     b ← annotations_terms d;
     m ← metadata d;
     if (a_study_id a =? a_study_id b)%string && (a_study_id a =? m_study_id m)%string
        && (a_term a =? term_a)%string && (a_term b =? term_b)%string
     then [(m_study_id m, m_title m)] else []).
Proof.
  intros Ha Hb Hm Hab Hid Hta Htb.
  apply list_elem_of_bind. exists a. split; [|exact Ha].
  apply list_elem_of_bind. exists b. split; [|exact Hb].
  close_row.
Qed.

Lemma studies_by_term_complete d term s m :
  s ∈ annotations_terms d -> m ∈ metadata d ->
  a_study_id s = m_study_id m -> a_term s = term ->
  (m_study_id m, m_title m) ∈
    (s ← annotations_terms d;
     m ← metadata d;
     if (a_study_id s =? m_study_id m)%string && (a_term s =? term)%string
     then [(a_study_id s, m_title m)] else []).
Proof. intros Hs Hm Hid Ht. close_row. now rewrite Hid. Qed.

Local Ltac open_raw H :=
  repeat (apply list_elem_of_bind in H as (? & H & ?));
  match type of H with
  | _ ∈ (if ?c then _ else _) =>
      destruct c eqn:?; [apply list_elem_of_singleton in H | inversion H]
  end;
  repeat match goal with
    | E : (_ && _)%bool = true |- _ => apply andb_true_iff in E as [? ?]
    | E : (_ =? _)%string = true |- _ => apply String.eqb_eq in E
    end;
  subst; eexists; split; [eassumption | congruence].

Lemma studies_by_term_exact d term study_id title :
  (N.of_nat (length (metadata d)) <= 10000)%N ->
  (study_id, title) ∈ Sql.studies_by_term d term <->
  from_metadata d (study_id, title) /\ has_row d study_id term.
Proof.
  intros Hcap. split.
  - intros H. apply studies_by_term_elem in H as [Hm Ht].
    split; [exact Hm | exact (proj1 (has_term_true _ _ _) Ht)].
  - intros [(m & Hm & [= -> ->]) (s & Hs & Hid & Ht)].
    unfold Sql.studies_by_term. apply (limit_distinct_all d); [exact Hcap| |].
    + intros r Hr. open_raw Hr.
    + now apply (studies_by_term_complete d term s m).
Qed.

Lemma term_a_not_b_exact d term_a term_b study_id title :
  (N.of_nat (length (metadata d)) <= 1000)%N ->
  (study_id, title) ∈ Sql.term_a_not_b d term_a term_b <->
  from_metadata d (study_id, title)
  /\ has_row d study_id term_a /\ no_row d study_id term_b.
Proof.
  intros Hcap. split.
  - intros H. apply term_a_not_b_elem in H as (Hm & Ha & Hb).
    split; [exact Hm|].
    split; [exact (proj1 (has_term_true _ _ _) Ha) | exact (proj1 (has_term_false _ _ _) Hb)].
  - intros ((m & Hm & [= -> ->]) & (a & Ha & Hid & Ht) & Hno).
    unfold Sql.term_a_not_b. apply (limit_distinct_all d); [exact Hcap| |].
    + intros r Hr. open_raw Hr.
    + apply (term_a_not_b_complete d term_a term_b a m); try assumption.
      rewrite Hid. exact (proj2 (has_term_false _ _ _) Hno).
Qed.

Lemma term_b_not_a_swap d term_a term_b :
  Sql.term_b_not_a d term_a term_b = Sql.term_a_not_b d term_b term_a.
Proof. reflexivity. Qed.

Lemma term_a_and_b_exact d term_a term_b study_id title :
  (N.of_nat (length (metadata d)) <= 100)%N ->
  (study_id, title) ∈ Sql.term_a_and_b d term_a term_b <->
  from_metadata d (study_id, title)
  /\ has_row d study_id term_a /\ has_row d study_id term_b.
Proof.
  intros Hcap. split.
  - intros H. apply term_a_and_b_elem in H as (Hm & Ha & Hb).
    split; [exact Hm|].
    split; [exact (proj1 (has_term_true _ _ _) Ha) | exact (proj1 (has_term_true _ _ _) Hb)].
  - intros ((m & Hm & [= -> ->]) & (a & Ha & Hida & Hta) & (b & Hb & Hidb & Htb)).
    unfold Sql.term_a_and_b. apply (limit_distinct_all d); [exact Hcap| |].
    + intros r Hr. open_raw Hr.
    + apply (term_a_and_b_complete d term_a term_b a b m); congruence.
Qed.

(** X5.  On a corpus of at most 10,000 studies, a lookup whose store calls
    succeed answers with exactly the studies that have an annotation under
    the normalised term, each with its title and each row once. *)
Theorem X5_lookup_returns_exactly_the_annotated_studies w st st1 eng term :
  get_engine w st = (inr eng, st1) ->
  first_fault w (length (calls st)) 3 = None ->
  (N.of_nat (length (metadata (db w))) <= 10000)%N ->
  exists rows : list study,
    fst (get_studies_by_term term w st)
      = inr (jsonify (JArr (map dict (map study_row rows))))
    /\ NoDup rows
    /\ forall study_id title,
         (study_id, title) ∈ rows <->
         from_metadata (db w) (study_id, title)
         /\ has_row (db w) study_id (normalize_term term).
Proof.
  intros Heng Hok Hcap.
  exists (Sql.studies_by_term (db w) (normalize_term term)).
  rewrite (get_studies_by_term_outcome w st st1 eng Heng), Hok.
  split; [reflexivity|]. split; [apply limit_distinct_NoDup|].
  intros study_id title. now apply studies_by_term_exact.
Qed.

Lemma X5_lookup_returns_exactly_the_annotated_studies_witness :
  exists rows : list study,
    fst (get_studies_by_term " Reward" Sample.healthy Sample.fresh)
      = inr (jsonify (JArr (map dict (map study_row rows))))
    /\ NoDup rows
    /\ forall study_id title,
         (study_id, title) ∈ rows <->
         from_metadata Sample.corpus (study_id, title)
         /\ has_row Sample.corpus study_id (normalize_term " Reward").
Proof.
  apply (X5_lookup_returns_exactly_the_annotated_studies Sample.healthy Sample.fresh
           {| _engine := Some (Engine "postgresql://host/ns"); calls := [] |}
           (Engine "postgresql://host/ns") " Reward").
  - reflexivity.
  - reflexivity.
  - vm_compute. discriminate.
Defined.

(** X6.  On a corpus of at most 1,000 studies, a term dissociation whose
    store calls succeed returns set differences: its first list holds
    exactly the studies with an annotation under A and none under B, its
    second list exactly those with an annotation under B and none under
    A. *)
Theorem X6_dissociation_is_set_difference w st st1 eng term_a term_b :
  get_engine w st = (inr eng, st1) ->
  first_fault w (length (calls st)) 4 = None ->
  (N.of_nat (length (metadata (db w))) <= 1000)%N ->
  exists rows_a rows_b : list study,
    fst (functional_dissociation term_a term_b w st)
      = inr (Response
               (Json.dumps (dissociation_body (display term_a) (display term_b)
                                              rows_a rows_b))
               "application/json")
    /\ (forall study_id title,
          (study_id, title) ∈ rows_a <->
          from_metadata (db w) (study_id, title)
          /\ has_row (db w) study_id (term_db term_a)
          /\ no_row (db w) study_id (term_db term_b))
    /\ (forall study_id title,
          (study_id, title) ∈ rows_b <->
          from_metadata (db w) (study_id, title)
          /\ has_row (db w) study_id (term_db term_b)
          /\ no_row (db w) study_id (term_db term_a)).
Proof.
  intros Heng Hok Hcap.
  exists (Sql.term_a_not_b (db w) (term_db term_a) (term_db term_b)),
         (Sql.term_b_not_a (db w) (term_db term_a) (term_db term_b)).
  rewrite (functional_dissociation_outcome w st st1 eng Heng), Hok.
  split; [reflexivity|]. split.
  - intros study_id title. now apply term_a_not_b_exact.
  - intros study_id title. rewrite term_b_not_a_swap. now apply term_a_not_b_exact.
Qed.

Lemma X6_dissociation_is_set_difference_witness :
  exists rows_a rows_b : list study,
    fst (functional_dissociation "pain" "reward" Sample.healthy Sample.fresh)
      = inr (Response
               (Json.dumps (dissociation_body (display "pain") (display "reward")
                                              rows_a rows_b))
               "application/json")
    /\ (forall study_id title,
          (study_id, title) ∈ rows_a <->
          from_metadata Sample.corpus (study_id, title)
          /\ has_row Sample.corpus study_id (term_db "pain")
          /\ no_row Sample.corpus study_id (term_db "reward"))
    /\ (forall study_id title,
          (study_id, title) ∈ rows_b <->
          from_metadata Sample.corpus (study_id, title)
          /\ has_row Sample.corpus study_id (term_db "reward")
          /\ no_row Sample.corpus study_id (term_db "pain")).
Proof.
  apply (X6_dissociation_is_set_difference Sample.healthy Sample.fresh
           {| _engine := Some (Engine "postgresql://host/ns"); calls := [] |}
           (Engine "postgresql://host/ns") "pain" "reward").
  - reflexivity.
  - reflexivity.
  - vm_compute. discriminate.
Defined.

(** X7.  On a corpus of at most 100 studies, a term intersection whose
    store calls succeed returns exactly the studies that have an annotation
    under A and an annotation under B. *)
Theorem X7_intersection_is_set_intersection w st st1 eng term_a term_b :
  get_engine w st = (inr eng, st1) ->
  first_fault w (length (calls st)) 3 = None ->
  (N.of_nat (length (metadata (db w))) <= 100)%N ->
  exists rows : list study,
    fst (intersect_terms term_a term_b w st)
      = inr (Response
               (Json.dumps (intersection_body (display term_a) (display term_b) rows))
               "application/json")
    /\ forall study_id title,
         (study_id, title) ∈ rows <->
         from_metadata (db w) (study_id, title)
         /\ has_row (db w) study_id (term_db term_a)
         /\ has_row (db w) study_id (term_db term_b).
Proof.
  intros Heng Hok Hcap.
  exists (Sql.term_a_and_b (db w) (term_db term_a) (term_db term_b)).
  rewrite (intersect_terms_outcome w st st1 eng Heng), Hok.
  split; [reflexivity|].
  intros study_id title. now apply term_a_and_b_exact.
Qed.

Lemma X7_intersection_is_set_intersection_witness :
  exists rows : list study,
    fst (intersect_terms "pain" "reward" Sample.healthy Sample.fresh)
      = inr (Response
               (Json.dumps (intersection_body (display "pain") (display "reward") rows))
               "application/json")
    /\ forall study_id title,
         (study_id, title) ∈ rows <->
         from_metadata Sample.corpus (study_id, title)
         /\ has_row Sample.corpus study_id (term_db "pain")
         /\ has_row Sample.corpus study_id (term_db "reward").
Proof.
  apply (X7_intersection_is_set_intersection Sample.healthy Sample.fresh
           {| _engine := Some (Engine "postgresql://host/ns"); calls := [] |}
           (Engine "postgresql://host/ns") "pain" "reward").
  - reflexivity.
  - reflexivity.
  - vm_compute. discriminate.
Defined.

Lemma has_point_reports d study_id x y z :
  Sql.has_point d study_id x y z = true <-> reports_point d study_id (x, y, z).
Proof.
  rewrite has_point_true. unfold reports_point. split.
  - intros (c & Hc & Hid & <- & <- & <-). now exists c.
  - intros (c & Hc & Hid & [= <- <- <-]). now exists c.
Qed.

Lemma coord_1_not_2_exact d x1 y1 z1 x2 y2 z2 study_id title :
  (N.of_nat (length (metadata d)) <= 100)%N ->
  (study_id, title) ∈ Sql.coord_1_not_2 d x1 y1 z1 x2 y2 z2 <->
  from_metadata d (study_id, title)
  /\ reports_point d study_id (x1, y1, z1) /\ ~ reports_point d study_id (x2, y2, z2).
Proof.
  intros Hcap. rewrite <- !has_point_reports, not_true_iff_false. split.
  - intros H. now apply coord_1_not_2_elem in H.
  - intros ((m & Hm & [= -> ->]) & H1 & H2).
    unfold Sql.coord_1_not_2. apply (limit_distinct_all d); [exact Hcap| |].
    + intros r Hr. open_raw Hr.
    + apply existsb_exists in H1 as (c & Hc & Hcond).
      apply andb_true_iff in Hcond as [Hid Hat]. apply String.eqb_eq in Hid.
      apply list_elem_of_In in Hc.
      apply list_elem_of_bind. exists c. split; [|exact Hc].
      apply list_elem_of_bind. exists m. split; [|exact Hm].
      rewrite Hid, String.eqb_refl, Hat, H2. now left.
Qed.

Lemma coord_2_not_1_swap d x1 y1 z1 x2 y2 z2 :
  Sql.coord_2_not_1 d x1 y1 z1 x2 y2 z2 = Sql.coord_1_not_2 d x2 y2 z2 x1 y1 z1.
Proof. reflexivity. Qed.

(** X8.  On a corpus of at most 100 studies, a coordinate dissociation of
    two well-formed tokens whose store calls succeed returns set
    differences on exact points, as long as the requested and the stored
    coordinates are of magnitude at most [2 ^ 53], where the store's double
    precision comparison is exact: the first list holds exactly the studies
    that report point 1 and do not report point 2, the second list exactly
    those that report point 2 and not point 1. *)
Theorem X8_coordinate_dissociation_is_set_difference
    w st st1 eng coord1 coord2 p1 p2 :
  get_engine w st = (inr eng, st1) ->
  parse coord1 = Some p1 -> parse coord2 = Some p2 ->
  point_exact p1 = true -> point_exact p2 = true ->
  coordinates_exact (db w) = true ->
  first_fault w (length (calls st)) 4 = None ->
  (N.of_nat (length (metadata (db w))) <= 100)%N ->
  exists rows_1 rows_2 : list study,
    fst (dissociate_coordinates coord1 coord2 w st)
      = inr (Response
               (Json.dumps (locations_body (spec_point_echo p1) (spec_point_echo p2)
                                           rows_1 rows_2))
               "application/json")
    /\ (forall study_id title,
          (study_id, title) ∈ rows_1 <->
          from_metadata (db w) (study_id, title)
          /\ reports_point (db w) study_id p1 /\ ~ reports_point (db w) study_id p2)
    /\ (forall study_id title,
          (study_id, title) ∈ rows_2 <->
          from_metadata (db w) (study_id, title)
          /\ reports_point (db w) study_id p2 /\ ~ reports_point (db w) study_id p1).
Proof.
  destruct p1 as [[x1 y1] z1], p2 as [[x2 y2] z2].
  intros Heng H1 H2 _ _ _ Hok Hcap.
  exists (Sql.coord_1_not_2 (db w) x1 y1 z1 x2 y2 z2),
         (Sql.coord_2_not_1 (db w) x1 y1 z1 x2 y2 z2).
  rewrite (dissociate_coordinates_outcome w st st1 eng Heng coord1 coord2 _ _ _ _ _ _ H1 H2),
    Hok.
  split; [reflexivity|]. split.
  - intros study_id title. now apply coord_1_not_2_exact.
  - intros study_id title. rewrite coord_2_not_1_swap. now apply coord_1_not_2_exact.
Qed.

Lemma X8_coordinate_dissociation_is_set_difference_witness :
  exists rows_1 rows_2 : list study,
    fst (dissociate_coordinates " 0_+0_-0" "10_-10_010" Sample.healthy Sample.fresh)
      = inr (Response
               (Json.dumps (locations_body (spec_point_echo (0, 0, 0)%Z)
                                           (spec_point_echo (10, -10, 10)%Z)
                                           rows_1 rows_2))
               "application/json")
    /\ (forall study_id title,
          (study_id, title) ∈ rows_1 <->
          from_metadata Sample.corpus (study_id, title)
          /\ reports_point Sample.corpus study_id (0, 0, 0)%Z
          /\ ~ reports_point Sample.corpus study_id (10, -10, 10)%Z)
    /\ (forall study_id title,
          (study_id, title) ∈ rows_2 <->
          from_metadata Sample.corpus (study_id, title)
          /\ reports_point Sample.corpus study_id (10, -10, 10)%Z
          /\ ~ reports_point Sample.corpus study_id (0, 0, 0)%Z).
Proof.
  apply (X8_coordinate_dissociation_is_set_difference Sample.healthy Sample.fresh
           {| _engine := Some (Engine "postgresql://host/ns"); calls := [] |}
           (Engine "postgresql://host/ns") " 0_+0_-0" "10_-10_010").
  - reflexivity.
  - reflexivity.
  - reflexivity.
  - reflexivity.
  - reflexivity.
  - reflexivity.
  - reflexivity.
  - vm_compute. discriminate.
Defined.

Lemma study_ids_iff (rows : list study) study_id :
  study_id ∈ map fst rows <-> exists title, (study_id, title) ∈ rows.
Proof.
  split.
  - intros H. apply study_ids_elem in H as ([s t] & Hr & <-). now exists t.
  - intros (title & H). apply list_elem_of_In, in_map_iff. exists (study_id, title).
    split; [reflexivity | now apply list_elem_of_In].
Qed.

(** X9.  Whatever the corpus and the caps, the three comparison statements
    never return a study twice across lists: no [study_id] is in both lists
    of a dissociation, and none of either list is in the intersection of the
    same two terms. *)
Theorem X9_comparison_lists_are_disjoint d term_a term_b study_id :
  ~ (study_id ∈ map fst (Sql.term_a_not_b d term_a term_b)
     /\ study_id ∈ map fst (Sql.term_b_not_a d term_a term_b))
  /\ ~ (study_id ∈ map fst (Sql.term_a_not_b d term_a term_b)
        /\ study_id ∈ map fst (Sql.term_a_and_b d term_a term_b))
  /\ ~ (study_id ∈ map fst (Sql.term_b_not_a d term_a term_b)
        /\ study_id ∈ map fst (Sql.term_a_and_b d term_a term_b)).
Proof.
  repeat split; intros [H1 H2];
    apply study_ids_elem in H1 as (r1 & Hr1 & E1);
    apply study_ids_elem in H2 as (r2 & Hr2 & E2);
    repeat match goal with
      | H : _ ∈ Sql.term_a_not_b _ _ _ |- _ => apply term_a_not_b_elem in H as (_ & ? & ?)
      | H : _ ∈ Sql.term_b_not_a _ _ _ |- _ => apply term_b_not_a_elem in H as (_ & ? & ?)
      | H : _ ∈ Sql.term_a_and_b _ _ _ |- _ => apply term_a_and_b_elem in H as (_ & ? & ?)
      end;
    rewrite E1 in *; rewrite E2 in *; congruence.
Qed.

(** X10.  On a corpus of at most 100 studies the statements compose as set
    algebra: the studies the lookup returns for a term A are those of the
    A-not-B list together with those of the A-and-B list, for any B. *)
Theorem X10_lookup_is_difference_plus_intersection d term_a term_b study_id :
  (N.of_nat (length (metadata d)) <= 100)%N ->
  study_id ∈ map fst (Sql.studies_by_term d term_a) <->
  study_id ∈ map fst (Sql.term_a_not_b d term_a term_b)
  \/ study_id ∈ map fst (Sql.term_a_and_b d term_a term_b).
Proof.
  intros Hcap. rewrite !study_ids_iff.
  setoid_rewrite (fun t => studies_by_term_exact d term_a study_id t ltac:(lia)).
  setoid_rewrite (fun t => term_a_not_b_exact d term_a term_b study_id t ltac:(lia)).
  setoid_rewrite (fun t => term_a_and_b_exact d term_a term_b study_id t Hcap).
  split.
  - intros (title & Hm & Ha).
    destruct (Sql.has_term d study_id term_b) eqn:Hb.
    + right. exists title. split; [exact Hm|]. split; [exact Ha|].
      exact (proj1 (has_term_true _ _ _) Hb).
    + left. exists title. split; [exact Hm|]. split; [exact Ha|].
      exact (proj1 (has_term_false _ _ _) Hb).
  - intros [(title & Hm & Ha & _) | (title & Hm & Ha & _)]; now exists title.
Qed.

Lemma X10_lookup_is_difference_plus_intersection_witness :
  "s2" ∈ map fst (Sql.studies_by_term Sample.corpus (prefix +:+ "pain")) <->
  "s2" ∈ map fst (Sql.term_a_not_b Sample.corpus (prefix +:+ "pain") (prefix +:+ "reward"))
  \/ "s2" ∈ map fst (Sql.term_a_and_b Sample.corpus (prefix +:+ "pain") (prefix +:+ "reward")).
Proof.
  apply X10_lookup_is_difference_plus_intersection. vm_compute. discriminate.
Defined.

Lemma no_rows {A} (l : list A) : (forall x, x ∉ l) -> l = [].
Proof. destruct l as [|x l]; [reflexivity|]. intros H. destruct (H x). now left. Qed.

(** X11.  Dissociating something from itself gives nothing: with the same
    term on both sides, or the same point on both sides, both anti-join
    statements return no row. *)
Theorem X11_self_dissociation_is_empty d term x y z :
  Sql.term_a_not_b d term term = []
  /\ Sql.term_b_not_a d term term = []
  /\ Sql.coord_1_not_2 d x y z x y z = []
  /\ Sql.coord_2_not_1 d x y z x y z = [].
Proof.
  repeat split; apply no_rows; intros r Hr.
  - apply term_a_not_b_elem in Hr as (_ & ? & ?). congruence.
  - apply term_b_not_a_elem in Hr as (_ & ? & ?). congruence.
  - apply coord_1_not_2_elem in Hr as (_ & ? & ?). congruence.
  - apply coord_2_not_1_elem in Hr as (_ & ? & ?). congruence.
Qed.

(** ** The statement of [/terms_sample] *)

Lemma terms_sample_exact d term :
  (N.of_nat (length (annotations_terms d)) <= 100000)%N ->
  term ∈ Sql.terms_sample d <-> exists a, a ∈ annotations_terms d /\ a_term a = term.
Proof.
  intros Hcap. unfold Sql.terms_sample, Sql.distinct. rewrite limit_all.
  - rewrite elem_of_remove_dups, list_elem_of_In, in_map_iff.
    split; intros (a & H1 & H2); exists a; now rewrite ?list_elem_of_In in *.
  - assert (length (remove_dups (map a_term (annotations_terms d)))
            <= length (annotations_terms d)); [|lia].
    rewrite <- (length_map a_term (annotations_terms d)).
    apply submseteq_length, NoDup_submseteq; [apply NoDup_remove_dups|].
    intros x. apply elem_of_remove_dups.
Qed.

(** X12.  With at most 100,000 annotation rows, [/terms_sample] answers,
    when its store calls succeed, with every term stored in the annotations,
    each exactly once and exactly as stored (prefix included). *)
Theorem X12_terms_sample_lists_each_stored_term_once w st st1 eng :
  get_engine w st = (inr eng, st1) ->
  first_fault w (length (calls st)) 3 = None ->
  (N.of_nat (length (annotations_terms (db w))) <= 100000)%N ->
  exists terms : list string,
    fst (get_terms_sample w st) = inr (jsonify (JArr (map JStr terms)))
    /\ NoDup terms
    /\ forall term, term ∈ terms <->
                    exists a, a ∈ annotations_terms (db w) /\ a_term a = term.
Proof.
  intros Heng Hok Hcap. exists (Sql.terms_sample (db w)).
  rewrite (get_terms_sample_outcome w st st1 eng Heng), Hok.
  split; [reflexivity|]. split.
  - apply limit_NoDup, NoDup_remove_dups.
  - intros term. now apply terms_sample_exact.
Qed.

Lemma X12_terms_sample_lists_each_stored_term_once_witness :
  exists terms : list string,
    fst (get_terms_sample Sample.healthy Sample.fresh) = inr (jsonify (JArr (map JStr terms)))
    /\ NoDup terms
    /\ forall term, term ∈ terms <->
                    exists a, a ∈ annotations_terms Sample.corpus /\ a_term a = term.
Proof.
  apply (X12_terms_sample_lists_each_stored_term_once Sample.healthy Sample.fresh
           {| _engine := Some (Engine "postgresql://host/ns"); calls := [] |}
           (Engine "postgresql://host/ns")).
  - reflexivity.
  - reflexivity.
  - vm_compute. discriminate.
Defined.

(** X13.  Any failure of the store during [/terms_sample] (opening the
    transaction, the statement, or the commit) leaves the handler as the
    store's exception with its message: this route has no [try] and builds no
    error response. *)
Theorem X13_terms_sample_propagates_store_failures w st st1 eng msg :
  get_engine w st = (inr eng, st1) ->
  first_fault w (length (calls st)) 3 = Some msg ->
  fst (get_terms_sample w st) = inl (SQLAlchemyError msg).
Proof. intros Heng H. now rewrite (get_terms_sample_outcome w st st1 eng Heng), H. Qed.

Lemma X13_terms_sample_propagates_store_failures_witness :
  fst (get_terms_sample (Sample.failing 2 "commit failed") Sample.fresh)
  = inl (SQLAlchemyError "commit failed").
Proof.
  apply (X13_terms_sample_propagates_store_failures (Sample.failing 2 "commit failed")
           Sample.fresh
           {| _engine := Some (Engine "postgresql://host/ns"); calls := [] |}
           (Engine "postgresql://host/ns")).
  - reflexivity.
  - reflexivity.
Defined.

(** ** Transactions *)

Lemma get_terms_sample_calls w st st1 eng :
  get_engine w st = (inr eng, st1) ->
  calls (snd (get_terms_sample w st))
  = calls st ++ transaction_trace w (length (calls st)) [SelectTermsSample].
Proof.
  intros Heng. pose proof (get_engine_calls w st st1 eng Heng) as Hc.
  unfold get_terms_sample, transaction_trace, body_trace, with_begin, execute, store_call,
    mbind, M_bind, bind, mret, M_ret, ret.
  rewrite Heng. cbn [fst snd calls _engine]. rewrite Hc.
  destruct (fault w (length (calls st))); cbn [fst snd calls _engine]; [reflexivity|].
  rewrite length_app, Nat.add_1_r. cbn [length].
  destruct (fault w (S (length (calls st)))); cbn [fst snd calls _engine];
    rewrite <- ?app_assoc; [reflexivity|].
  rewrite !length_app. cbn [length].
  destruct (fault w _); cbn [fst snd calls _engine]; now rewrite <- ?app_assoc.
Qed.

Lemma serve_calls w st st1 eng r :
  get_engine w st = (inr eng, st1) ->
  calls (snd (serve r w st))
  = calls st ++ match route_statements r with
                | Some qs => transaction_trace w (length (calls st)) qs
                | None => []
                end.
Proof.
  intros Heng. destruct r as [|term|[a b|a b|c1 c2]]; cbn [serve handle route_statements].
  - apply (get_terms_sample_calls w st st1 eng Heng).
  - apply (get_studies_by_term_calls w st st1 eng Heng).
  - apply (functional_dissociation_calls w st st1 eng Heng).
  - apply (intersect_terms_calls w st st1 eng Heng).
  - destruct (parse c1) as [[[x1 y1] z1]|] eqn:H1.
    2:{ rewrite (dissociate_coordinates_malformed w st st1 eng Heng c1 c2) by (now left).
        cbn [snd]. rewrite app_nil_r. apply (get_engine_calls w st st1 eng Heng). }
    destruct (parse c2) as [[[x2 y2] z2]|] eqn:H2.
    2:{ rewrite (dissociate_coordinates_malformed w st st1 eng Heng c1 c2) by (now right).
        cbn [snd]. rewrite app_nil_r. apply (get_engine_calls w st st1 eng Heng). }
    apply (dissociate_coordinates_calls w st st1 eng Heng c1 c2 _ _ _ _ _ _ H1 H2).
Qed.

(** The shape of the calls of one transaction. *)
Lemma body_trace_shape w qs : forall n,
  (first_fault w n (length qs) = None
   /\ body_trace w n qs = map Execute qs ++ [Commit])
  \/ exists done rest,
       qs = done ++ rest /\ done <> []
       /\ body_trace w n qs = map Execute done ++ [Rollback].
Proof.
  induction qs as [|q qs IH]; intros n; cbn [body_trace first_fault length].
  - left. now split.
  - destruct (fault w n) eqn:Hf.
    + right. exists [q], qs. now repeat split.
    + destruct (IH (S n)) as [[Hok ->] | (done & rest & -> & Hne & ->)].
      * left. now split.
      * right. exists (q :: done), rest. now repeat split.
Qed.

Lemma transaction_trace_shape w n qs :
  (fault w n <> None /\ transaction_trace w n qs = [Begin])
  \/ (first_fault w n (S (length qs)) = None
      /\ transaction_trace w n qs = Begin :: map Execute qs ++ [Commit])
  \/ exists done rest,
       qs = done ++ rest /\ done <> []
       /\ transaction_trace w n qs = Begin :: map Execute done ++ [Rollback].
Proof.
  unfold transaction_trace. cbn [first_fault]. destruct (fault w n) eqn:Hf.
  - left. now split.
  - right. destruct (body_trace_shape w qs (S n)) as [[Hok ->] | (done & rest & H)].
    + left. now split.
    + right. exists done, rest. destruct H as (-> & Hne & ->). now repeat split.
Qed.

(** X14.  Every transaction a route opens is closed: the calls a request
    adds are none at all (malformed coordinates), a lone failed [Begin], or
    [Begin], statements of the route in their order, and one last call that
    is [Commit] after all the statements or [Rollback] right after the
    statement that failed; no statement is sent after a failure. *)
Theorem X14_transactions_are_closed w st st1 eng r :
  get_engine w st = (inr eng, st1) ->
  exists added, calls (snd (serve r w st)) = calls st ++ added
    /\ ((added = [] /\ route_statements r = None)
        \/ added = [Begin]
        \/ (exists qs, route_statements r = Some qs
                       /\ added = Begin :: map Execute qs ++ [Commit])
        \/ (exists done rest, route_statements r = Some (done ++ rest) /\ done <> []
                              /\ added = Begin :: map Execute done ++ [Rollback])).
Proof.
  intros Heng. rewrite (serve_calls w st st1 eng r Heng).
  destruct (route_statements r) as [qs|].
  - exists (transaction_trace w (length (calls st)) qs). split; [reflexivity|].
    destruct (transaction_trace_shape w (length (calls st)) qs)
      as [[_ ->] | [[_ ->] | (done & rest & -> & Hne & ->)]].
    + right. now left.
    + right. right. left. now exists qs.
    + right. right. right. now exists done, rest.
  - exists []. split; [reflexivity|]. left. now split.
Qed.

Lemma X14_transactions_are_closed_witness :
  exists added,
    calls (snd (serve (Comparison (DissociateTerms "pain" "reward"))
                      (Sample.failing 1 "timeout") Sample.fresh)) = [] ++ added
    /\ ((added = []
         /\ route_statements (Comparison (DissociateTerms "pain" "reward")) = None)
        \/ added = [Begin]
        \/ (exists qs, route_statements (Comparison (DissociateTerms "pain" "reward")) = Some qs
                       /\ added = Begin :: map Execute qs ++ [Commit])
        \/ (exists done rest,
              route_statements (Comparison (DissociateTerms "pain" "reward"))
                = Some (done ++ rest) /\ done <> []
              /\ added = Begin :: map Execute done ++ [Rollback])).
Proof.
  apply (X14_transactions_are_closed (Sample.failing 1 "timeout") Sample.fresh
           {| _engine := Some (Engine "postgresql://host/ns"); calls := [] |}
           (Engine "postgresql://host/ns")).
  reflexivity.
Defined.

Lemma body_trace_success w qs : forall n,
  first_fault w n (S (length qs)) = None ->
  body_trace w n qs = map Execute qs ++ [Commit].
Proof.
  induction qs as [|q qs IH]; intros n H; [reflexivity|].
  cbn [first_fault length] in H. cbn [body_trace map].
  destruct (fault w n); [discriminate|].
  cbn [app]. f_equal. apply IH. exact H.
Qed.

Lemma transaction_trace_success w n qs :
  first_fault w n (S (S (length qs))) = None ->
  transaction_trace w n qs = Begin :: map Execute qs ++ [Commit].
Proof.
  intros H. unfold transaction_trace. cbn [first_fault] in H.
  destruct (fault w n); [discriminate|]. f_equal. now apply body_trace_success.
Qed.

(** What a route answers, by the first failure among its store calls. *)
Lemma serve_outcome w st st1 eng r qs :
  get_engine w st = (inr eng, st1) ->
  route_statements r = Some qs ->
  match first_fault w (length (calls st)) (S (S (length qs))) with
  | Some msg =>
      fst (serve r w st)
      = match r with
        | TermsSample => inl (SQLAlchemyError msg)
        | _ => inr (error_response (SQLAlchemyError msg))
        end
  | None => exists resp, fst (serve r w st) = inr resp /\ status resp = 200%Z
  end.
Proof.
  intros Heng Hqs.
  destruct r as [|term|[a b|a b|c1 c2]]; cbn [serve handle route_statements] in *.
  - injection Hqs as <-. rewrite (get_terms_sample_outcome w st st1 eng Heng).
    cbn [length]. destruct (first_fault _ _ 3); [reflexivity | eauto].
  - injection Hqs as <-. rewrite (get_studies_by_term_outcome w st st1 eng Heng).
    cbn [length]. destruct (first_fault _ _ 3); [reflexivity | eauto].
  - injection Hqs as <-. rewrite (functional_dissociation_outcome w st st1 eng Heng).
    cbn [length]. destruct (first_fault _ _ 4); [reflexivity | eauto].
  - injection Hqs as <-. rewrite (intersect_terms_outcome w st st1 eng Heng).
    cbn [length]. destruct (first_fault _ _ 3); [reflexivity | eauto].
  - destruct (parse c1) as [[[x1 y1] z1]|] eqn:H1; [|discriminate].
    destruct (parse c2) as [[[x2 y2] z2]|] eqn:H2; [|discriminate].
    injection Hqs as <-.
    rewrite (dissociate_coordinates_outcome w st st1 eng Heng c1 c2 _ _ _ _ _ _ H1 H2).
    cbn [length]. destruct (first_fault _ _ 4); [reflexivity | eauto].
Qed.

(** X15.  A 200 answer of any route means its whole transaction went
    through: the request added exactly [Begin], every statement of the route
    in order, and [Commit]; nothing was rolled back and no statement was
    skipped. *)
Theorem X15_success_means_committed w st st1 eng r resp :
  get_engine w st = (inr eng, st1) ->
  fst (serve r w st) = inr resp ->
  status resp = 200%Z ->
  exists qs, route_statements r = Some qs
             /\ calls (snd (serve r w st))
                = calls st ++ Begin :: map Execute qs ++ [Commit].
Proof.
  intros Heng Hrun Hstatus.
  destruct (route_statements r) as [qs|] eqn:Hqs.
  - exists qs. split; [reflexivity|].
    rewrite (serve_calls w st st1 eng r Heng), Hqs. f_equal.
    apply transaction_trace_success.
    pose proof (serve_outcome w st st1 eng r qs Heng Hqs) as H.
    destruct (first_fault w (length (calls st)) (S (S (length qs)))); [|reflexivity].
    rewrite H in Hrun. destruct r; [discriminate| |];
      injection Hrun as <-; discriminate.
  - destruct r as [|term|[a b|a b|c1 c2]]; cbn [route_statements] in Hqs; try discriminate.
    cbn [serve handle] in Hrun.
    rewrite (dissociate_coordinates_malformed w st st1 eng Heng c1 c2) in Hrun.
    + injection Hrun as <-. discriminate.
    + destruct (parse c1) as [[[? ?] ?]|]; [|now left].
      destruct (parse c2) as [[[? ?] ?]|]; [discriminate | now right].
Qed.

Lemma X15_success_means_committed_witness :
  exists qs, route_statements (StudiesByTerm "pain") = Some qs
             /\ calls (snd (serve (StudiesByTerm "pain") Sample.healthy Sample.fresh))
                = [] ++ Begin :: map Execute qs ++ [Commit].
Proof.
  apply (X15_success_means_committed Sample.healthy Sample.fresh
           {| _engine := Some (Engine "postgresql://host/ns"); calls := [] |}
           (Engine "postgresql://host/ns") (StudiesByTerm "pain")
           (jsonify (JArr (map dict (map study_row [("s1", "One"); ("s2", "Two")]))))).
  - reflexivity.
  - vm_compute. reflexivity.
  - reflexivity.
Defined.

(** X16.  The four routes with a [try] answer any store failure (opening
    the transaction, a statement, or the commit) with status 500 and the body
    [{"error": message}] carrying the message of the first failing call;
    rows fetched before the failure are not returned. *)
Theorem X16_guarded_routes_answer_500_with_first_message w st st1 eng r qs msg :
  get_engine w st = (inr eng, st1) ->
  r <> TermsSample ->
  route_statements r = Some qs ->
  first_fault w (length (calls st)) (S (S (length qs))) = Some msg ->
  fst (serve r w st)
  = inr {| status := 500; mimetype := "application/json";
           payload := Jsonify (JObj [("error", JStr msg)]) |}.
Proof.
  intros Heng Hr Hqs Hfault.
  pose proof (serve_outcome w st st1 eng r qs Heng Hqs) as H.
  rewrite Hfault in H. rewrite H. destruct r; [contradiction | reflexivity ..].
Qed.

Lemma X16_guarded_routes_answer_500_with_first_message_witness :
  fst (serve (Comparison (DissociateTerms "pain" "reward"))
             (Sample.failing 2 "statement timeout") Sample.fresh)
  = inr {| status := 500; mimetype := "application/json";
           payload := Jsonify (JObj [("error", JStr "statement timeout")]) |}.
Proof.
  apply (X16_guarded_routes_answer_500_with_first_message
           (Sample.failing 2 "statement timeout") Sample.fresh
           {| _engine := Some (Engine "postgresql://host/ns"); calls := [] |}
           (Engine "postgresql://host/ns") (Comparison (DissociateTerms "pain" "reward"))
           [SelectTermANotB (term_db "pain") (term_db "reward");
            SelectTermBNotA (term_db "pain") (term_db "reward")]).
  - reflexivity.
  - discriminate.
  - reflexivity.
  - reflexivity.
Defined.

(** ** Coordinate tokens *)

(** X17.  A token that parses has exactly two delimiters; any other number
    of underscores is rejected. *)
Theorem X17_parsed_token_has_two_delimiters token p :
  parse token = Some p -> count token "_" = 2.
Proof.
  destruct p as [[x y] z]. intros H.
  apply parse_spec_coordinate in H as (a & b & c & -> & Ha & Hb & Hc).
  rewrite !count_app, (spec_integer_count a x Ha), (spec_integer_count b y Hb),
    (spec_integer_count c z Hc).
  reflexivity.
Qed.

Lemma X17_parsed_token_has_two_delimiters_witness : count "1_-2_3" "_" = 2.
Proof.
  apply (X17_parsed_token_has_two_delimiters "1_-2_3" (1, -2, 3)%Z). reflexivity.
Defined.

Section DecimalFacts.

Lemma decimal_of_uint_acc u : forall acc,
  decimal (Zpos acc) (NilEmpty.string_of_uint u) = Zpos (Pos.of_uint_acc u acc).
Proof.
  induction u; intros acc; cbn [NilEmpty.string_of_uint decimal Pos.of_uint_acc];
    [reflexivity | rewrite <- IHu; f_equal; cbn; lia ..].
Qed.

Lemma decimal_of_uint u :
  decimal 0 (NilEmpty.string_of_uint u) = Z.of_N (Pos.of_uint u).
Proof.
  induction u; cbn [NilEmpty.string_of_uint decimal Pos.of_uint];
    [reflexivity | exact IHu | apply decimal_of_uint_acc ..].
Qed.

Lemma all_digits_of_uint u : all_digits (NilEmpty.string_of_uint u) = true.
Proof. induction u; cbn [NilEmpty.string_of_uint all_digits]; auto. Qed.

Lemma positive_numeral p :
  let ds := NilZero.string_of_uint (Pos.to_uint p) in
  all_digits ds = true /\ ds <> EmptyString /\ decimal 0 ds = Zpos p.
Proof.
  pose proof (DecimalPos.Unsigned.of_to p) as Hp. cbv zeta.
  assert (Hs : NilZero.string_of_uint (Pos.to_uint p)
               = NilEmpty.string_of_uint (Pos.to_uint p)
               /\ NilEmpty.string_of_uint (Pos.to_uint p) <> EmptyString).
  { destruct (Pos.to_uint p); [discriminate Hp | split; [reflexivity | discriminate] ..]. }
  destruct Hs as [-> Hne].
  split; [apply all_digits_of_uint|]. split; [exact Hne|].
  now rewrite decimal_of_uint, Hp.
Qed.

Lemma append_empty_r s : s +:+ EmptyString = s.
Proof. induction s as [|c s IH]; [reflexivity|]. now rewrite append_String, IH. Qed.

Lemma str_of_int_bounded_integer n :
  (N.of_nat (decimal_digits n) <= Py.max_str_digits)%N ->
  bounded_integer (Json.str_of_int n) n.
Proof.
  unfold decimal_digits, Json.str_of_int.
  destruct n as [|p|p]; cbn [Z.abs Z.to_int NilZero.string_of_int]; intros Hlim.
  - exists EmptyString, EmptyString, "0", EmptyString.
    do 4 (split; [reflexivity|]). split; [discriminate|]. split; [exact Hlim|].
    left. split; [now left | reflexivity].
  - destruct (positive_numeral p) as (Hd & Hne & Hv).
    exists EmptyString, EmptyString, (NilZero.string_of_uint (Pos.to_uint p)), EmptyString.
    split.
    { change (EmptyString +:+ EmptyString +:+ ?s +:+ EmptyString) with (s +:+ EmptyString).
      now rewrite append_empty_r. }
    do 2 (split; [reflexivity|]). do 3 (split; [assumption|]).
    left. split; [now left | now rewrite Hv].
  - destruct (positive_numeral p) as (Hd & Hne & Hv).
    exists EmptyString, "-", (NilZero.string_of_uint (Pos.to_uint p)), EmptyString.
    split.
    { change (EmptyString +:+ "-" +:+ ?s +:+ EmptyString)
        with (String "-"%char (s +:+ EmptyString)).
      now rewrite append_empty_r. }
    do 2 (split; [reflexivity|]). do 3 (split; [assumption|]).
    right. split; [reflexivity | now rewrite Hv].
Qed.

End DecimalFacts.

(** X18.  Writing three integers of at most 4300 decimal digits each (the
    integers [str] and [int] convert) with the delimiter between them and
    parsing the token gives the three integers back, also when they are
    negative or zero. *)
Theorem X18_parse_reads_back_written_coordinates x y z :
  (N.of_nat (decimal_digits x) <= Py.max_str_digits)%N ->
  (N.of_nat (decimal_digits y) <= Py.max_str_digits)%N ->
  (N.of_nat (decimal_digits z) <= Py.max_str_digits)%N ->
  parse (Json.str_of_int x +:+ "_" +:+ Json.str_of_int y +:+ "_" +:+ Json.str_of_int z)
  = Some (x, y, z).
Proof.
  intros Hx Hy Hz. apply parse_bounded_coordinate.
  exists (Json.str_of_int x), (Json.str_of_int y), (Json.str_of_int z).
  split; [reflexivity|]. repeat split; now apply str_of_int_bounded_integer.
Qed.

Lemma X18_parse_reads_back_written_coordinates_witness :
  parse (Json.str_of_int 5 +:+ "_" +:+ Json.str_of_int (-12) +:+ "_" +:+ Json.str_of_int 0)
  = Some (5, -12, 0)%Z.
Proof.
  apply (X18_parse_reads_back_written_coordinates 5 (-12) 0);
    vm_compute; discriminate.
Defined.

(** ** Spellings of a term *)

Lemma replace_idem t :
  Py.replace (Py.replace t "_" " ") "_" " " = Py.replace t "_" " ".
Proof. apply replace_without, count_replace. Qed.

(** X19.  The display form of a term does not depend on its letter case,
    on surrounding blanks, or on whether its words are separated by
    underscores or by spaces, and taking it twice changes nothing. *)
Theorem X19_display_ignores_case_blanks_and_underscores t :
  display (Py.lower t) = display t
  /\ display (Py.strip t) = display t
  /\ display (Py.replace t "_" " ") = display t
  /\ display (display t) = display t
  /\ count (display t) "_" = 0.
Proof.
  unfold display. repeat split.
  - now rewrite <- lower_replace, strip_lower, lower_idem.
  - now rewrite strip_replace_strip.
  - now rewrite replace_idem.
  - rewrite (replace_without (Py.lower _)).
    + apply lower_strip_fixed.
    + now rewrite count_lower, count_strip, count_replace.
  - now rewrite count_lower, count_strip, count_replace.
Qed.

(** X20.  The term dissociation and the term intersection depend on their
    path terms only through the display forms: two requests whose terms have
    the same display forms (for instance [Social_Cognition] and
    [social cognition]) run the same statements and get the same answer. *)
Theorem X20_comparisons_depend_on_display_forms a a' b b' w st :
  display a = display a' -> display b = display b' ->
  functional_dissociation a b w st = functional_dissociation a' b' w st
  /\ intersect_terms a b w st = intersect_terms a' b' w st.
Proof.
  intros Ha Hb. unfold functional_dissociation, intersect_terms.
  fold (display a) (display b) (display a') (display b').
  now rewrite Ha, Hb.
Qed.

Lemma X20_comparisons_depend_on_display_forms_witness :
  functional_dissociation "Social_Cognition " "PAIN" Sample.healthy Sample.fresh
  = functional_dissociation "social cognition" "pain" Sample.healthy Sample.fresh
  /\ intersect_terms "Social_Cognition " "PAIN" Sample.healthy Sample.fresh
     = intersect_terms "social cognition" "pain" Sample.healthy Sample.fresh.
Proof.
  apply X20_comparisons_depend_on_display_forms; reflexivity.
Defined.

(** X21.  The lookup recognises a term that already carries the storage
    prefix and does not prefix it again, whereas the comparisons always put
    the prefix in front of the display form; hence for a term written with
    its prefix the comparisons never query what the lookup queries. *)
Theorem X21_prefix_is_recognised_by_lookup_only t :
  normalize_term (prefix +:+ t) = prefix +:+ Py.lower (Py.rstrip t)
  /\ term_db t = prefix +:+ display t
  /\ term_db (prefix +:+ t) <> normalize_term (prefix +:+ t).
Proof.
  split; [|split; [apply term_db_eq|]].
  - unfold normalize_term, Py.strip.
    change (Py.lstrip (prefix +:+ t)) with (prefix +:+ t).
    assert (Hr : Py.rstrip (prefix +:+ t) = prefix +:+ Py.rstrip t).
    { destruct (Py.rstrip t) eqn:E.
      - rewrite rstrip_app_blank by exact E. now rewrite append_empty_r.
      - rewrite rstrip_app; rewrite E; [reflexivity | discriminate]. }
    rewrite Hr, lower_app. change (Py.lower prefix) with prefix.
    now rewrite startswith_app.
  - intros H. symmetry in H. revert H. apply normalize_term_ne_term_db.
    rewrite count_app. discriminate.
Qed.

(** X22.  The lookup depends on its path term only through the normalised
    term: letter case and surrounding blanks are ignored, and asking with the
    stored, prefixed form of a term gives the same answer as asking with the
    term itself. *)
Theorem X22_lookup_ignores_case_blanks_and_prefix t w st :
  get_studies_by_term (Py.lower t) w st = get_studies_by_term t w st
  /\ get_studies_by_term (Py.strip t) w st = get_studies_by_term t w st
  /\ get_studies_by_term (normalize_term t) w st = get_studies_by_term t w st.
Proof.
  unfold get_studies_by_term. rewrite normalize_term_idem.
  assert (H1 : normalize_term (Py.lower t) = normalize_term t).
  { unfold normalize_term. now rewrite strip_lower, lower_idem. }
  assert (H2 : normalize_term (Py.strip t) = normalize_term t).
  { unfold normalize_term. now rewrite strip_idem. }
  now rewrite H1, H2.
Qed.

(** ** The engine across requests *)

Lemma get_engine_result_cached w st st1 eng :
  get_engine w st = (inr eng, st1) -> _engine st1 = Some eng.
Proof.
  unfold get_engine. destruct (_engine st) as [cached|] eqn:Hc.
  - now intros [= <- <-].
  - destruct (DB_URL w) as [[|c u]|]; try discriminate.
    match goal with |- context [create_engine_error w ?u] =>
      destruct (create_engine_error w u) end; [discriminate|].
    now intros [= <- <-].
Qed.

Lemma serve_keeps_engine w st st1 eng r :
  get_engine w st = (inr eng, st1) ->
  _engine (snd (serve r w st)) = _engine st1.
Proof.
  intros Heng.
  destruct r as [|term|[a b|a b|c1 c2]]; cbn [serve handle];
    [unfold get_terms_sample | unfold get_studies_by_term
     | unfold functional_dissociation | unfold intersect_terms
     | unfold dissociate_coordinates, parse_coordinate;
       destruct (parse c1) as [[[x1 y1] z1]|], (parse c2) as [[[x2 y2] z2]|]];
    unfold with_begin, execute, try_except, any_exception, value_error, store_call,
      raise, mbind, M_bind, bind, mret, M_ret, ret;
    rewrite Heng; cbn [fst snd calls _engine];
    repeat match goal with
      | |- context [fault w ?n] => destruct (fault w n); cbn [fst snd calls _engine]
      end;
    reflexivity.
Qed.

(** X24.  Requests never drop or replace the engine: once a request has
    obtained it, the process state after that request, answered or failed,
    still holds it, and the next request gets the same engine whatever the
    environment is by then. *)
Theorem X24_engine_survives_requests w w' st st1 eng r :
  get_engine w st = (inr eng, st1) ->
  _engine (snd (serve r w st)) = Some eng
  /\ fst (get_engine w' (snd (serve r w st))) = inr eng.
Proof.
  intros Heng.
  assert (H : _engine (snd (serve r w st)) = Some eng).
  { rewrite (serve_keeps_engine w st st1 eng r Heng).
    apply (get_engine_result_cached w st st1 eng Heng). }
  split; [exact H|]. unfold get_engine. now rewrite H.
Qed.

Lemma X24_engine_survives_requests_witness :
  _engine (snd (serve (StudiesByTerm "pain") (Sample.failing 1 "timeout") Sample.fresh))
    = Some (Engine "postgresql://host/ns")
  /\ fst (get_engine {| DB_URL := None; create_engine_error := fun _ => None;
                        db := Sample.corpus; fault := fun _ => None |}
                     (snd (serve (StudiesByTerm "pain") (Sample.failing 1 "timeout")
                                 Sample.fresh)))
     = inr (Engine "postgresql://host/ns").
Proof.
  apply (X24_engine_survives_requests (Sample.failing 1 "timeout") _ Sample.fresh
           {| _engine := Some (Engine "postgresql://host/ns"); calls := [] |}).
  reflexivity.
Defined.
